(** * Roster management of mugen-installer, shallow embedding

    The two scripts [mugen-installer.py] (the installer) and
    [mugen_manager_v2.py] (the manager) keep a game's roster file in step
    with the character folders on disk.  This file embeds the roster
    parsing, the roster rewriting and the add / delete operations.

    Modelling choices:
    - Python strings are [string] (ASCII); [str.strip], [str.lower],
      [str.upper], [str.split], [str.startswith] and [str.replace] are
      written out below for ASCII.
    - The disk is a [gmap string node]: a path is a key, a directory is
      [Dir], a text file holds its lines (each with its terminator, as
      [readlines] returns them; a written text is stored as [readlines]
      gives it back) and [config.json] holds its parsed JSON value
      (json.load / json.dump are not modelled as text).  The files inside
      an extracted archive or a moved character folder are not modelled.
    - Python exceptions are the [exn] constructors, threaded by the
      [result] monad with stdpp's [x ← m; k] notation.
    - User input ([input()]) and the archive-side collaborators
      (extraction, [find_character_folder], [find_def_file]) are given as
      arguments. *)

From stdpp Require Import base gmap strings list.
From Stdlib Require Import Ascii Sorting.Sorted Lia.

#[local] Set Warnings "-register-all".

Local Open Scope stdpp_scope.

(* ------------------------------------------------------------------ *)
(** ** Python exceptions and the result monad *)

Inductive exn :=
  | FileNotFoundError
  | IsADirectoryError
  | JSONDecodeError
  | AttributeError
  | TypeError
  | IndexError
  | ShutilError
  | FileExistsError
  | NotADirectoryError
  | SystemExit.

Inductive result (A : Type) :=
  | Ok (a : A)
  | Raise (e : exn).
Arguments Ok {A} a.
Arguments Raise {A} e.

Global Instance result_ret : MRet result := fun A a => Ok a.
Global Instance result_bind : MBind result := fun A B f m =>
  match m with Ok a => f a | Raise e => Raise e end.

(* ------------------------------------------------------------------ *)
(** ** Python [str] methods on ASCII strings *)

Module Py.

(** [str.isspace] on one ASCII character: 9..13 and 28..32. *)
Definition is_space (c : ascii) : bool :=
  let n := nat_of_ascii c in
  ((9 <=? n) && (n <=? 13)) || ((28 <=? n) && (n <=? 32)).

Fixpoint lstrip (s : string) : string :=
  match s with
  | EmptyString => EmptyString
  | String c r => if is_space c then lstrip r else s
  end.

Definition rev_str (s : string) : string :=
  String.string_of_list_ascii (rev (String.list_ascii_of_string s)).

Definition rstrip (s : string) : string := rev_str (lstrip (rev_str s)).

Definition strip (s : string) : string := rstrip (lstrip s).

Definition lower_char (c : ascii) : ascii :=
  let n := nat_of_ascii c in
  if (65 <=? n) && (n <=? 90) then ascii_of_nat (n + 32) else c.

Definition upper_char (c : ascii) : ascii :=
  let n := nat_of_ascii c in
  if (97 <=? n) && (n <=? 122) then ascii_of_nat (n - 32) else c.

Fixpoint map_str (f : ascii -> ascii) (s : string) : string :=
  match s with
  | EmptyString => EmptyString
  | String c r => String (f c) (map_str f r)
  end.

Definition lower (s : string) : string := map_str lower_char s.
Definition upper (s : string) : string := map_str upper_char s.

(** [s.replace(a, b)] for one-character [a] and [b]. *)
Definition replace_char (a b : ascii) (s : string) : string :=
  map_str (fun c => if Ascii.eqb c a then b else c) s.

(** [s.startswith(p)] *)
Definition startswith (s p : string) : bool := String.prefix p s.

(** [s.endswith(p)] for a one-character [p]. *)
Definition endswith_char (s : string) (c : ascii) : bool :=
  match rev_str s with
  | String d _ => Ascii.eqb d c
  | EmptyString => false
  end.

(** [s.endswith(suffix)] *)
Definition endswith (s suffix : string) : bool := String.prefix (rev_str suffix) (rev_str s).

(** [s.split(sep)] for a one-character separator: never empty. *)
Fixpoint split (sep : ascii) (s : string) : list string :=
  match s with
  | EmptyString => [EmptyString]
  | String c r =>
      if Ascii.eqb c sep then EmptyString :: split sep r
      else match split sep r with
           | w :: ws => String c w :: ws
           | [] => [String c EmptyString]
           end
  end.

(** [s.split(sep)[0]] *)
Definition split0 (sep : ascii) (s : string) : string :=
  match split sep s with w :: _ => w | [] => EmptyString end.

(** [os.path.join(a, b)] (POSIX). *)
Definition join (a b : string) : string :=
  if startswith b "/" then b
  else if String.eqb a "" then b
  else if endswith_char a "/"%char then a +:+ b
  else a +:+ "/" +:+ b.

(** [os.path.split(p)] (POSIX): the part after the last [/] is the tail;
    the head loses its trailing slashes unless it is made of slashes only.
    [split_rev] works on the reversed path and returns the reversed tail
    and the reversed head. *)
Fixpoint split_rev (l : list ascii) : list ascii * list ascii :=
  match l with
  | [] => ([], [])
  | c :: r => if Ascii.eqb c "/"%char then ([], l) else let '(t, h) := split_rev r in (c :: t, h)
  end.

Fixpoint drop_slashes (l : list ascii) : list ascii :=
  match l with
  | c :: r => if Ascii.eqb c "/"%char then drop_slashes r else l
  | [] => []
  end.

Definition split_path (p : string) : string * string :=
  let '(t, h) := split_rev (rev (String.list_ascii_of_string p)) in
  let h' := match drop_slashes h with [] => h | h2 => h2 end in
  (String.string_of_list_ascii (rev h'), String.string_of_list_ascii (rev t)).

(** [os.path.basename(p)] *)
Definition basename (p : string) : string := (split_path p).2.

(** [x in xs] for a list of strings. *)
Definition mem (x : string) (xs : list string) : bool :=
  existsb (String.eqb x) xs.

(** [xs.remove(x)]: drop the first occurrence. *)
Fixpoint remove_first (x : string) (xs : list string) : list string :=
  match xs with
  | [] => []
  | y :: ys => if String.eqb x y then ys else y :: remove_first x ys
  end.

(** [xs[i]] with Python's negative indices. *)
Definition index {A} (xs : list A) (i : Z) : result A :=
  let j := if (i <? 0)%Z then (i + Z.of_nat (length xs))%Z else i in
  if (j <? 0)%Z then Raise IndexError
  else match nth_error xs (Z.to_nat j) with
       | Some x => Ok x
       | None => Raise IndexError
       end.

(** [sorted(set(xs))]: the distinct strings of [xs] in increasing
    code-point order; [ins] puts one string in its place. *)
Fixpoint ins (s : string) (xs : list string) : list string :=
  match xs with
  | [] => [s]
  | x :: r =>
      match String.compare s x with
      | Lt => s :: xs
      | Eq => xs
      | Gt => x :: ins s r
      end
  end.

Definition sorted_set (xs : list string) : list string := fold_right ins [] xs.

End Py.

(* ------------------------------------------------------------------ *)
(** ** JSON values and Python dict operations *)

Inductive json :=
  | JNull
  | JBool (b : bool)
  | JNum (n : Z)
  | JStr (s : string)
  | JArr (l : list json)
  | JObj (kv : list (string * json)).

(** [d.get(k)] on a dict's items. *)
Fixpoint obj_get (kv : list (string * json)) (k : string) : option json :=
  match kv with
  | [] => None
  | (k', v) :: r => if String.eqb k k' then Some v else obj_get r k
  end.

(** [d[k] = v]: an existing key keeps its position, a new one goes last. *)
Fixpoint obj_set (kv : list (string * json)) (k : string) (v : json)
    : list (string * json) :=
  match kv with
  | [] => [(k, v)]
  | (k', v') :: r => if String.eqb k k' then (k', v) :: r else (k', v') :: obj_set r k v
  end.

(** [d.get(k, default)] where [d] must be a dict. *)
Definition py_get (d : json) (k : string) (default : json) : result json :=
  match d with
  | JObj kv => Ok (match obj_get kv k with Some v => v | None => default end)
  | _ => Raise AttributeError
  end.

(** [for x in v]: lists give their items, dicts their keys, strings
    their characters; other values are not iterable. *)
Definition py_iter (v : json) : result (list json) :=
  match v with
  | JArr l => Ok l
  | JObj kv => Ok (map (fun p => JStr p.1) kv)
  | JStr s => Ok (map (fun c => JStr (String c EmptyString)) (String.list_ascii_of_string s))
  | _ => Raise TypeError
  end.

(** [x.replace('\\', '/')] where [x] must be a [str]. *)
Definition py_replace_bs (v : json) : result string :=
  match v with
  | JStr s => Ok (Py.replace_char "\"%char "/"%char s)
  | _ => Raise AttributeError
  end.

(** [for x in xs: f(x)] in the result monad. *)
Fixpoint mapM {A B} (f : A -> result B) (xs : list A) : result (list B) :=
  match xs with
  | [] => Ok []
  | x :: r => y ← f x; ys ← mapM f r; Ok (y :: ys)
  end.

(* ------------------------------------------------------------------ *)
(** ** The disk *)

Inductive node :=
  | Dir
  | TextFile (lines : list string)
  | JsonFile (v : json)
  | Blob.
(** [Blob] is a file whose bytes are not modelled (an archive). *)

Abbreviation disk := (gmap string node).

(** [open(p, 'r')] followed by [json.load]. *)
Definition json_load (fs : disk) (p : string) : result json :=
  match fs !! p with
  | None => Raise FileNotFoundError
  | Some Dir => Raise IsADirectoryError
  | Some (TextFile _) => Raise JSONDecodeError
  | Some Blob => Raise JSONDecodeError
  | Some (JsonFile v) => Ok v
  end.

(** [open(p, 'r')] followed by iteration over its lines. *)
Definition read_lines (fs : disk) (p : string) : result (list string) :=
  match fs !! p with
  | None => Raise FileNotFoundError
  | Some Dir => Raise IsADirectoryError
  | Some (TextFile ls) => Ok ls
  | Some (JsonFile _) => Raise JSONDecodeError
  | Some Blob => Raise JSONDecodeError
  end.

(** [open(p, 'w')] followed by a write of the new content: the parent
    (the head of [os.path.split(p)], the current directory when empty)
    must be a directory, and [p] must not be one. *)
Definition write_file (fs : disk) (p : string) (n : node) : result disk :=
  let parent := (Py.split_path p).1 in
  match (if String.eqb parent "" then Some Dir else fs !! parent) with
  | None => Raise FileNotFoundError
  | Some Dir =>
      match fs !! p with
      | Some Dir => Raise IsADirectoryError
      | _ => Ok (<[p := n]> fs)
      end
  | Some _ => Raise NotADirectoryError
  end.

(** Text files.  A [TextFile] holds the lines [readlines] returns.
    Writing a list of lines with [f.writelines] stores their
    concatenation; reading it back in text mode turns ["\r\n"] and
    ["\r"] into ["\n"] (universal newlines) and cuts the text after each
    ["\n"]. *)
Fixpoint writelines (lines : list string) : string :=
  match lines with
  | [] => EmptyString
  | l :: r => l +:+ writelines r
  end.

Fixpoint univ_newlines (s : string) : string :=
  match s with
  | EmptyString => EmptyString
  | String c r =>
    if Ascii.eqb c "013"%char then
      match r with
      | String d r' =>
          if Ascii.eqb d "010"%char then String "010"%char (univ_newlines r')
          else String "010"%char (univ_newlines r)
      | EmptyString => String "010"%char EmptyString
      end
    else String c (univ_newlines r)
  end.

Fixpoint split_after_nl (s : string) : list string :=
  match s with
  | EmptyString => []
  | String c r =>
    if Ascii.eqb c "010"%char then String c EmptyString :: split_after_nl r
    else match split_after_nl r with
         | [] => [String c EmptyString]
         | l :: ls => String c l :: ls
         end
  end.

Definition readlines (s : string) : list string := split_after_nl (univ_newlines s).

(** [with open(p, 'w') as f: f.write(s)] for a text [s]. *)
Definition write_text (fs : disk) (p : string) (s : string) : result disk :=
  write_file fs p (TextFile (readlines s)).

(** A line as [readlines] returns it before the end of the text: no line
    break inside, one ["\n"] at the end. *)
Fixpoint full_line (s : string) : bool :=
  match s with
  | EmptyString => false
  | String c r =>
    if Ascii.eqb c "010"%char then String.eqb r ""
    else negb (Ascii.eqb c "013"%char) && full_line r
  end.

(** A string without ["\n"] and ["\r"]. *)
Definition no_break (s : string) : bool :=
  forallb (fun c => negb (Ascii.eqb c "010"%char) && negb (Ascii.eqb c "013"%char))
          (String.list_ascii_of_string s).

Definition exists_path (fs : disk) (p : string) : bool :=
  match fs !! p with Some _ => true | None => false end.

Definition isdir (fs : disk) (p : string) : bool :=
  match fs !! p with Some Dir => true | _ => false end.

Definition isfile (fs : disk) (p : string) : bool :=
  match fs !! p with Some Dir | None => false | Some _ => true end.

(** [os.mkdir(p)]: the parent (the head of [os.path.split]) must be a
    directory. *)
Definition mkdir (fs : disk) (name : string) : result disk :=
  if exists_path fs name then Raise FileExistsError else
  let parent := (Py.split_path name).1 in
  if String.eqb parent "" then Ok (<[name := Dir]> fs) else
  match fs !! parent with
  | None => Raise FileNotFoundError
  | Some Dir => Ok (<[name := Dir]> fs)
  | Some _ => Raise NotADirectoryError
  end.

(** [os.makedirs(name)] (with [exist_ok=False]), following CPython's
    [os.makedirs]: the missing head is created first (a
    [FileExistsError] from that call is ignored), then [name] itself.
    The recursion is on the head, shorter than [name]; [n] is fuel, and
    [makedirs] gives it the length of the path. *)
Fixpoint makedirs_fuel (n : nat) (fs : disk) (name : string) : result disk :=
  match n with
  | O => mkdir fs name
  | S n' =>
    let '(head, tail) := Py.split_path name in
    let '(head, tail) := if String.eqb tail "" then Py.split_path head else (head, tail) in
    if negb (String.eqb head "") && negb (String.eqb tail "") && negb (exists_path fs head) then
      fs1 ← match makedirs_fuel n' fs head with
            | Raise FileExistsError => Ok fs
            | r => r
            end;
      if String.eqb tail "." then Ok fs1 else mkdir fs1 name
    else mkdir fs name
  end.

Definition makedirs (fs : disk) (name : string) : result disk :=
  makedirs_fuel (String.length name) fs name.

(** [q] is [p] or lies below it. *)
Definition within (p q : string) : bool :=
  String.eqb q p || String.prefix (p +:+ "/") q.

(** [shutil.rmtree(p)] on a directory [p]. *)
Definition rmtree (fs : disk) (p : string) : disk :=
  filter (fun kv => within p kv.1 = false) fs.

(** [shutil.rmtree(p)] on any path: a missing path raises
    [FileNotFoundError], a file [NotADirectoryError]. *)
Definition rmtree_dir (fs : disk) (p : string) : result disk :=
  match fs !! p with
  | None => Raise FileNotFoundError
  | Some Dir => Ok (rmtree fs p)
  | Some _ => Raise NotADirectoryError
  end.

(** The two lines that prepare the temporary extraction folder in both
    scripts: [if os.path.exists(temp): shutil.rmtree(temp)], then
    [os.makedirs(temp)]. *)
Definition fresh_temp (fs : disk) (temp : string) : result disk :=
  fs0 ← (if exists_path fs temp then rmtree_dir fs temp else Ok fs);
  makedirs fs0 temp.

(** [os.remove(p)] *)
Definition os_remove (fs : disk) (p : string) : result disk :=
  match fs !! p with
  | None => Raise FileNotFoundError
  | Some Dir => Raise IsADirectoryError
  | Some _ => Ok (delete p fs)
  end.

(** [shutil.move(src, dst)] of the extracted folder [name] into [dst].
    When [dst] is a directory the target is [dst/name], and an existing
    target raises [shutil.Error]; otherwise the target is [dst] itself,
    and an existing file there makes [os.rename] fail and the [copytree]
    fallback raise [FileExistsError].  A free target is taken to be
    reached by [os.rename] (no cross-device move, no permission error):
    the [copytree] fallback for those cases is not modelled.  Neither are
    the folder's contents: the target becomes a directory. *)
Definition move_into (fs : disk) (dst name : string) : result disk :=
  if isdir fs dst then
    let dest := Py.join dst name in
    if exists_path fs dest then Raise ShutilError else Ok (<[dest := Dir]> fs)
  else if exists_path fs dst then Raise FileExistsError
  else Ok (<[dst := Dir]> fs).

(* ------------------------------------------------------------------ *)
(** ** mugen_manager_v2.py: the roster *)

Definition get_roster_path (game_path engine_type : string) : option string :=
  if String.eqb (Py.upper engine_type) "IKEMEN" then
    Some (Py.join (Py.join game_path "save") "config.json")
  else if String.eqb (Py.upper engine_type) "MUGEN" then
    Some (Py.join (Py.join game_path "data") "select.def")
  else None.

(** The folder name of one IKEMEN [Characters] entry, as computed by
    [read_roster] (lines 61-65) and by [write_roster_ikemen] (lines
    89-90): the second [/]-segment of a [chars/...] path, else [None]. *)
Definition entry_folder (entry : json) : result (option string) :=
  v ← py_get entry "char" (JStr "");
  char_path ← py_replace_bs v;
  let parts := Py.split "/"%char char_path in
  Ok (if Py.startswith char_path "chars/" && (1 <? length parts)
      then nth_error parts 1 else None).

(** The identity token of a [select.def] line:
    [line.split(',')[0].split('\\')[0].strip()]. *)
Definition char_token (line : string) : string :=
  Py.strip (Py.split0 "\"%char (Py.split0 ","%char line)).

(** One iteration of the MUGEN loop of [read_roster] (lines 69-79);
    the state is [(in_chars_section, chars)]. *)
Definition mugen_step (st : bool * list string) (line0 : string) : bool * list string :=
  let '(in_chars_section, chars) := st in
  let line := Py.strip line0 in
  if String.eqb line "" || Py.startswith line ";" then st
  else if String.eqb (Py.lower line) "[characters]" then (true, chars)
  else
    let in_chars_section := if Py.startswith line "[" then false else in_chars_section in
    if in_chars_section then (in_chars_section, chars ++ [char_token line])
    else (in_chars_section, chars).

Definition mugen_scan (lines : list string) : list string :=
  (fold_left mugen_step lines (false, [])).2.

Definition read_roster (fs : disk) (roster_path engine_type : string)
    : result (list string) :=
  if String.eqb (Py.upper engine_type) "IKEMEN" then
    config_data ← json_load fs roster_path;
    chars_v ← py_get config_data "Characters" (JArr []);
    entries ← py_iter chars_v;
    folders ← mapM entry_folder entries;
    Ok (Py.sorted_set (omap id folders))
  else if String.eqb (Py.upper engine_type) "MUGEN" then
    lines ← read_lines fs roster_path;
    Ok (Py.sorted_set (mugen_scan lines))
  else Ok (Py.sorted_set []).

(** The list [chars] that [read_roster] has collected when it reaches
    [sorted(list(set(chars)))] (line 80). *)
Definition roster_chars (fs : disk) (roster_path engine_type : string)
    : result (list string) :=
  if String.eqb (Py.upper engine_type) "IKEMEN" then
    config_data ← json_load fs roster_path;
    chars_v ← py_get config_data "Characters" (JArr []);
    entries ← py_iter chars_v;
    folders ← mapM entry_folder entries;
    Ok (omap id folders : list string)
  else if String.eqb (Py.upper engine_type) "MUGEN" then
    lines ← read_lines fs roster_path;
    Ok (mugen_scan lines)
  else Ok [].

(** [folder_name in chars_to_keep], where [None in xs] is false. *)
Definition folder_in (f : option string) (keep : list string) : bool :=
  match f with Some n => Py.mem n keep | None => false end.

(** The loop of [write_roster_ikemen] (lines 88-92). *)
Fixpoint keep_loop (keep : list string) (entries : list json) : result (list json) :=
  match entries with
  | [] => Ok []
  | e :: r =>
      f ← entry_folder e;
      rest ← keep_loop keep r;
      Ok (if folder_in f keep then e :: rest else rest)
  end.

(** [d[k] = v] where [d] must be a dict. *)
Definition py_setitem (d : json) (k : string) (v : json) : result json :=
  match d with
  | JObj kv => Ok (JObj (obj_set kv k v))
  | _ => Raise TypeError
  end.

Definition write_roster_ikemen (fs : disk) (roster_path : string)
    (chars_to_keep : list string) : result disk :=
  config_data ← json_load fs roster_path;
  chars_v ← py_get config_data "Characters" (JArr []);
  entries ← py_iter chars_v;
  full_paths_to_keep ← keep_loop chars_to_keep entries;
  config_data' ← py_setitem config_data "Characters" (JArr full_paths_to_keep);
  write_file fs roster_path (JsonFile config_data').

Definition add_to_roster_ikemen (fs : disk) (roster_path char_folder_name def_file_name : string)
    : result disk :=
  config_data ← json_load fs roster_path;
  let new_entry := JObj [("char", JStr ("chars/" +:+ char_folder_name +:+ "/" +:+ def_file_name))] in
  match config_data with
  | JObj kv =>
      let kv1 := match obj_get kv "Characters" with
                 | Some _ => kv
                 | None => obj_set kv "Characters" (JArr [])
                 end in
      match obj_get kv1 "Characters" with
      | Some (JArr l) =>
          write_file fs roster_path (JsonFile (JObj (obj_set kv1 "Characters" (JArr (l ++ [new_entry])))))
      | _ => Raise AttributeError
      end
  | _ => Raise TypeError
  end.

(** The outcome of [delete_character]: the roster was empty, the user
    cancelled (choice 0, out of range, not a number, or no [y]), or the
    named character was deleted. *)
Inductive delete_outcome :=
  | DelEmpty
  | DelCancelled
  | Deleted (name : string).

(** [delete_character]; [choice] is [int(input(...))], [None] when [int]
    raises [ValueError]; [confirm] is the confirmation answer. *)
Definition delete_character (fs : disk) (roster : list string)
    (roster_path engine_type chars_folder : string)
    (choice : option Z) (confirm : string) : result (disk * delete_outcome) :=
  match roster with
  | [] => Ok (fs, DelEmpty)
  | _ =>
    match choice with
    | None => Ok (fs, DelCancelled)
    | Some c =>
      if (c =? 0)%Z || (Z.of_nat (length roster) <? c)%Z then Ok (fs, DelCancelled)
      else
        char_to_delete ← Py.index roster (c - 1);
        if negb (String.eqb (Py.lower confirm) "y") then Ok (fs, DelCancelled)
        else
          let roster' := Py.remove_first char_to_delete roster in
          fs1 ← (if String.eqb (Py.upper engine_type) "IKEMEN"
                 then write_roster_ikemen fs roster_path roster' else Ok fs);
          let char_folder_path := Py.join chars_folder char_to_delete in
          let fs2 := if isdir fs1 char_folder_path then rmtree fs1 char_folder_path else fs1 in
          Ok (fs2, Deleted char_to_delete)
    end
  end.

(** What the archive-side collaborators report for one archive:
    whether [extract_archive] succeeded, the folder
    [find_character_folder] picked, and the file [find_def_file] found
    in it after the move.  The extracted files themselves are not
    modelled. *)
Record archive := {
  ar_name : string;
  ar_extracted : bool;
  ar_folder : option string;
  ar_def : option string }.

Inductive add_report :=
  | ExtractFailed
  | NoCharFolder
  | AlreadyInstalled (name : string)
  | NoDefFile (name : string)
  | Installed (name : string)
  | MovedOnly (name : string).

(** One iteration of the loop of [add_characters] (lines 166-207);
    [base_path] is what [get_base_path()] returns.  The temporary folder
    is emptied and created again for each archive, removed at the end of
    an installation, and left in place by every [continue]. *)
Definition add_one (roster : list string)
    (roster_path engine_type chars_folder downloads_path base_path : string)
    (cleanup : bool) (fs : disk) (a : archive) : result (disk * add_report) :=
  let archive_path := Py.join downloads_path (ar_name a) in
  let temp_extract := Py.join base_path "_temp_extract" in
  fs0 ← fresh_temp fs temp_extract;
  if negb (ar_extracted a) then Ok (fs0, ExtractFailed) else
  match ar_folder a with
  | None => Ok (fs0, NoCharFolder)
  | Some char_folder_name =>
    if Py.mem char_folder_name roster then Ok (fs0, AlreadyInstalled char_folder_name) else
    fs1 ← move_into fs0 chars_folder char_folder_name;
    match ar_def a with
    | None => Ok (fs1, NoDefFile char_folder_name)
    | Some def_file =>
      let ikemen := String.eqb (Py.upper engine_type) "IKEMEN" in
      fs2 ← (if ikemen then add_to_roster_ikemen fs1 roster_path char_folder_name def_file
             else Ok fs1);
      fs3 ← (if cleanup then os_remove fs2 archive_path else Ok fs2);
      fs4 ← rmtree_dir fs3 temp_extract;
      Ok (fs4, if ikemen then Installed char_folder_name else MovedOnly char_folder_name)
    end
  end.

(** [add_characters]: the [roster] argument is the list read before the
    loop and is not updated inside it. *)
Fixpoint add_characters (fs : disk) (roster : list string)
    (roster_path engine_type chars_folder downloads_path base_path : string)
    (cleanup : bool) (archives : list archive) : result (disk * list add_report) :=
  match archives with
  | [] => Ok (fs, [])
  | a :: r =>
    '(fs1, rep) ← add_one roster roster_path engine_type chars_folder downloads_path base_path
                    cleanup fs a;
    '(fs2, reps) ← add_characters fs1 roster roster_path engine_type chars_folder downloads_path
                     base_path cleanup r;
    Ok (fs2, rep :: reps)
  end.

(** The start of [main] once the configuration is loaded: without a
    roster file it prints an error and returns. *)
Inductive start :=
  | StartMenu (roster_path chars_folder : string)
  | StartAborted.

Definition main_start (fs : disk) (game_path engine_type : string) : start :=
  match get_roster_path game_path engine_type with
  | Some p => if exists_path fs p then StartMenu p (Py.join game_path "chars") else StartAborted
  | None => StartAborted
  end.

(* ------------------------------------------------------------------ *)
(** ** mugen-installer.py: [add_char_to_select_def] *)

(** The returned flag is [True] for [SelAlreadyPresent] and
    [SelUpdated], [False] otherwise. *)
Inductive select_outcome :=
  | SelAlreadyPresent
  | SelNoSection
  | SelUpdated
  | SelWriteFailed.

Definition char_line (char_name : string) : string := char_name +:+ String "010"%char EmptyString.

(** One iteration of the insertion loop (lines 112-124); the state is
    [(new_lines, in_chars_section, inserted)]. *)
Definition select_step (char_name : string) (st : list string * bool * bool) (line : string)
    : list string * bool * bool :=
  let '(new_lines, in_chars_section, inserted) := st in
  if String.eqb (Py.lower (Py.strip line)) "[characters]" then
    (new_lines ++ [line], true, inserted)
  else if in_chars_section && Py.startswith (Py.strip line) "[" then
    let new_lines := if inserted then new_lines else new_lines ++ [char_line char_name] in
    (new_lines ++ [line], false, true)
  else (new_lines ++ [line], in_chars_section, inserted).

Definition already_listed (char_name : string) (lines : list string) : bool :=
  existsb (fun line => Py.startswith (Py.lower (Py.strip line)) (Py.lower char_name)) lines.

Definition add_char_to_select_def (fs : disk) (select_def_path char_name : string)
    : result (disk * select_outcome) :=
  lines ← read_lines fs select_def_path;
  if already_listed char_name lines then Ok (fs, SelAlreadyPresent) else
  let '(new_lines, in_chars_section, inserted) :=
    fold_left (select_step char_name) lines ([], false, false) in
  let '(new_lines, inserted) :=
    if in_chars_section && negb inserted
    then (new_lines ++ [char_line char_name], true) else (new_lines, inserted) in
  if negb inserted then Ok (fs, SelNoSection) else
  match write_text fs select_def_path (writelines new_lines) with
  | Ok fs' => Ok (fs', SelUpdated)
  | Raise _ => Ok (fs, SelWriteFailed)
  end.

(** The three roster writers of the scripts, as one operation:
    [write_roster_ikemen] (delete and replace under IKEMEN),
    [add_to_roster_ikemen] (add under IKEMEN) and the installer's
    [add_char_to_select_def]. *)
Inductive roster_write :=
  | RewriteIkemen (chars_to_keep : list string)
  | AppendIkemen (char_folder_name def_file_name : string)
  | InsertSelectDef (char_name : string).

Definition run_roster_write (fs : disk) (roster_path : string) (w : roster_write) : result disk :=
  match w with
  | RewriteIkemen keep => write_roster_ikemen fs roster_path keep
  | AppendIkemen f d => add_to_roster_ikemen fs roster_path f d
  | InsertSelectDef name => r ← add_char_to_select_def fs roster_path name; Ok r.1
  end.

(* ------------------------------------------------------------------ *)
(** ** mugen_manager_v2.py: configuration, replace, helpers and the menu *)

Definition default_config : json :=
  JObj [("ENGINE_TYPE", JStr "IKEMEN");
        ("GAME_PATH", JStr "C:/path/to/your/ikemen_go");
        ("DOWNLOADS_PATH", JStr "C:/path/to/your/downloads/mugen_chars");
        ("CLEANUP_ARCHIVES_AFTER_ADD", JBool true)].

(** [load_or_create_config]: [None] stands for the script's [return None]. *)
Definition load_or_create_config (fs : disk) (config_path : string)
    : result (disk * option json) :=
  if negb (exists_path fs config_path) then
    fs' ← write_file fs config_path (JsonFile default_config);
    Ok (fs', None)
  else
    match json_load fs config_path with
    | Ok v => Ok (fs, Some v)
    | Raise JSONDecodeError => Ok (fs, None)
    | Raise e => Raise e
    end.

(** [find_def_file]; [listdir] is what [os.listdir] returns for a path,
    in the order the system gives. *)
Definition find_def_file (listdir : string -> list string) (fs : disk)
    (char_folder_path : string) : option string :=
  let char_folder_name := Py.basename char_folder_path in
  if isfile fs (Py.join char_folder_path (char_folder_name +:+ ".def"))
  then Some (char_folder_name +:+ ".def")
  else List.find (fun file => Py.endswith (Py.lower file) ".def") (listdir char_folder_path).

(** [find_character_folder] of the manager. *)
Definition find_character_folder (listdir : string -> list string) (fs : disk)
    (base_path : string) : option string :=
  let contents := listdir base_path in
  match contents with
  | [] => None
  | c0 :: rest =>
    if (match rest with [] => true | _ => false end) && isdir fs (Py.join base_path c0)
    then Some c0
    else
      match List.find (fun item =>
              isdir fs (Py.join base_path item) &&
              match find_def_file listdir fs (Py.join base_path item) with
              | Some _ => true | None => false end) contents with
      | Some item => Some item
      | None => if isdir fs (Py.join base_path c0) then Some c0 else None
      end
  end.

Inductive replace_outcome :=
  | RepEmpty
  | RepCancelled
  | RepNoArchives
  | Replaced (name : string) (reports : list add_report).

(** [replace_character]; [choice] and [archive_choice] are the two
    [int(input(...))] answers ([None] for a [ValueError]).  [archives]
    describes the archives of the downloads folder: their names are the
    list the script shows, and the same archives are handed to
    [add_characters]. *)
Definition replace_character (fs : disk) (roster : list string)
    (roster_path engine_type chars_folder downloads_path base_path : string) (cleanup : bool)
    (choice : option Z) (archives : list archive) (archive_choice : option Z)
    : result (disk * replace_outcome) :=
  match roster with
  | [] => Ok (fs, RepEmpty)
  | _ =>
    match choice with
    | None => Ok (fs, RepCancelled)
    | Some c =>
      if (c =? 0)%Z || (Z.of_nat (length roster) <? c)%Z then Ok (fs, RepCancelled)
      else
        char_to_replace ← Py.index roster (c - 1);
        let archive_names := map ar_name archives in
        match archive_names with
        | [] => Ok (fs, RepNoArchives)
        | _ =>
          match archive_choice with
          | None => Ok (fs, RepCancelled)
          | Some ac =>
            if (ac =? 0)%Z || (Z.of_nat (length archive_names) <? ac)%Z then Ok (fs, RepCancelled)
            else
              archive_to_install ← Py.index archive_names (ac - 1);
              let roster' := Py.remove_first char_to_replace roster in
              fs1 ← (if String.eqb (Py.upper engine_type) "IKEMEN"
                     then write_roster_ikemen fs roster_path roster' else Ok fs);
              let char_folder_path := Py.join chars_folder char_to_replace in
              let fs2 := if isdir fs1 char_folder_path then rmtree fs1 char_folder_path else fs1 in
              '(fs3, reports) ← add_characters fs2 roster' roster_path engine_type chars_folder
                                  downloads_path base_path cleanup archives;
              Ok (fs3, Replaced char_to_replace reports)
          end
        end
    end
  end.

(** The answers given to the prompts of one menu action. *)
Record menu_input := {
  in_choice : option Z;
  in_confirm : string;
  in_archive_choice : option Z }.

(** One iteration of the [while True] loop of [main] (lines 332-350):
    the roster is read again, then the chosen action runs; the flag
    tells whether the loop goes on. *)
Definition main_iteration (fs : disk)
    (roster_path engine_type chars_folder downloads_path base_path : string)
    (cleanup : bool) (archives : list archive) (choice : string) (inp : menu_input)
    : result (disk * bool) :=
  current_roster ← read_roster fs roster_path engine_type;
  if String.eqb choice "1" then Ok (fs, true)
  else if String.eqb choice "2" then
    '(fs', _) ← add_characters fs current_roster roster_path engine_type chars_folder
                  downloads_path base_path cleanup archives;
    Ok (fs', true)
  else if String.eqb choice "3" then
    '(fs', _) ← delete_character fs current_roster roster_path engine_type chars_folder
                  (in_choice inp) (in_confirm inp);
    Ok (fs', true)
  else if String.eqb choice "4" then
    '(fs', _) ← replace_character fs current_roster roster_path engine_type chars_folder
                  downloads_path base_path cleanup (in_choice inp) archives (in_archive_choice inp);
    Ok (fs', true)
  else if String.eqb choice "5" then Ok (fs, false)
  else Ok (fs, true).

(* ------------------------------------------------------------------ *)
(** ** mugen-installer.py: validation, folder search and the main loop *)

Module Installer.

(** [validate_paths] with [MUGEN_PATH] and [DOWNLOADS_PATH] as
    arguments; [sys.exit] raises [SystemExit]. *)
Definition validate_paths (fs : disk) (mugen_path downloads_path : string) : result disk :=
  let chars_folder := Py.join mugen_path "chars" in
  let data_folder := Py.join mugen_path "data" in
  let select_def_path := Py.join data_folder "select.def" in
  if negb (isdir fs mugen_path) then Raise SystemExit
  else if negb (isdir fs chars_folder) || negb (isdir fs data_folder) then Raise SystemExit
  else if negb (isfile fs select_def_path) then Raise SystemExit
  else if negb (isdir fs downloads_path) then makedirs fs downloads_path
  else Ok fs.

(** [find_character_folder] of the installer. *)
Definition find_character_folder (listdir : string -> list string) (fs : disk)
    (base_path : string) : option string :=
  let contents := listdir base_path in
  let has_own_def item :=
    isdir fs (Py.join base_path item) &&
    isfile fs (Py.join (Py.join base_path item) (item +:+ ".def")) in
  let search := List.find has_own_def contents in
  match contents with
  | [c0] => if isdir fs (Py.join base_path c0) &&
               isfile fs (Py.join (Py.join base_path c0) (c0 +:+ ".def"))
            then Some c0 else search
  | _ => search
  end.

Inductive report :=
  | ExtractFailed
  | NoCharFolder
  | AlreadyExists (name : string)
  | Processed (name : string) (select_def_ok : bool).

(** One iteration of the loop of [main] (lines 158-199); [ar_folder] is
    what [find_character_folder] returned for the extracted archive.  The
    temporary folder [TEMP_EXTRACT_FOLDER] is emptied and created again
    for each archive and removed on every path but a failed extraction. *)
Definition process_archive (mugen_path downloads_path : string) (cleanup : bool)
    (fs : disk) (a : archive) : result (disk * report) :=
  let chars_folder := Py.join mugen_path "chars" in
  let select_def_path := Py.join (Py.join mugen_path "data") "select.def" in
  let temp_extract_folder := Py.join downloads_path "_temp_extract" in
  let archive_path := Py.join downloads_path (ar_name a) in
  fs0 ← fresh_temp fs temp_extract_folder;
  if negb (ar_extracted a) then Ok (fs0, ExtractFailed) else
  match ar_folder a with
  | None =>
    fs1 ← rmtree_dir fs0 temp_extract_folder;
    Ok (fs1, NoCharFolder)
  | Some char_folder_name =>
    if exists_path fs0 (Py.join chars_folder char_folder_name) then
      fs1 ← rmtree_dir fs0 temp_extract_folder;
      Ok (fs1, AlreadyExists char_folder_name)
    else
    fs1 ← move_into fs0 chars_folder char_folder_name;
    '(fs2, o) ← add_char_to_select_def fs1 select_def_path char_folder_name;
    let ok := match o with SelAlreadyPresent | SelUpdated => true | _ => false end in
    fs3 ← (if ok && cleanup then os_remove fs2 archive_path else Ok fs2);
    fs4 ← rmtree_dir fs3 temp_extract_folder;
    Ok (fs4, Processed char_folder_name ok)
  end.

Fixpoint process_all (mugen_path downloads_path : string) (cleanup : bool)
    (fs : disk) (archives : list archive) : result (disk * list report) :=
  match archives with
  | [] => Ok (fs, [])
  | a :: r =>
    '(fs1, rep) ← process_archive mugen_path downloads_path cleanup fs a;
    '(fs2, reps) ← process_all mugen_path downloads_path cleanup fs1 r;
    Ok (fs2, rep :: reps)
  end.

(** [main]: validation, then the archives of the downloads folder. *)
Definition main (fs : disk) (mugen_path downloads_path : string) (cleanup : bool)
    (archives : list archive) : result (disk * list report) :=
  fs1 ← validate_paths fs mugen_path downloads_path;
  process_all mugen_path downloads_path cleanup fs1 archives.

End Installer.

(* ------------------------------------------------------------------ *)
(** ** Sample disks *)

Definition nl : string := String "010"%char EmptyString.

Definition cfg_path : string := "g/save/config.json".
Definition sel_path : string := "g/data/select.def".

Definition ryu_cfg : json :=
  JObj [("Motif", JStr "data/system.def");
        ("Characters", JArr [JObj [("char", JStr "chars/RYU/ryu.def")];
                             JObj [("char", JStr "stages/x.def")]])].

Definition duo_cfg : json :=
  JObj [("Characters", JArr [JObj [("char", JStr "chars/RYU/ryu.def")];
                             JObj [("char", JStr "chars\KFM\kfm.def")]])].

Definition duo_disk : disk :=
  {[cfg_path := JsonFile duo_cfg; "g" := Dir; "g/save" := Dir; "g/chars" := Dir;
    "g/chars/RYU" := Dir; "g/chars/RYU/ryu.def" := Blob; "g/chars/KFM" := Dir]}.

Definition sel_disk : disk :=
  {[sel_path := TextFile ["[Characters]" +:+ nl; "kfm" +:+ nl; "[ExtraStages]" +:+ nl];
    "g" := Dir; "g/data" := Dir; "g/chars" := Dir; "dl" := Dir; "dl/ryu.zip" := Blob;
    "app" := Dir]}.

Definition mugen_disk : disk :=
  {["m" := Dir; "m/chars" := Dir; "m/data" := Dir;
    "m/data/select.def" := TextFile ["[Characters]" +:+ nl; "kfm" +:+ nl; "[ExtraStages]" +:+ nl];
    "m/dl" := Dir; "m/dl/ryu.zip" := Blob]}.

Example ex_get_roster_path : get_roster_path "g" "mugen" = Some sel_path.
Proof. reflexivity. Qed.

Example ex_read_ikemen :
  read_roster {[cfg_path := JsonFile ryu_cfg]} cfg_path "IKEMEN" = Ok ["RYU"].
Proof. reflexivity. Qed.

Example ex_read_mugen :
  read_roster {[sel_path := TextFile ["[Characters]" +:+ nl; " kfm, stages/a.def" +:+ nl;
                                      "; c" +:+ nl; "Ryu\x" +:+ nl; "[ExtraStages]" +:+ nl; "s.def"]]}
    sel_path "MUGEN" = Ok ["Ryu"; "kfm"].
Proof. reflexivity. Qed.

Example ex_select_add :
  add_char_to_select_def {[sel_path := TextFile ["[Characters]" +:+ nl; "KFM" +:+ nl; "[ExtraStages]" +:+ nl];
                           "g/data" := Dir]}
    sel_path "Ryu"
  = Ok ({[sel_path := TextFile ["[Characters]" +:+ nl; "KFM" +:+ nl; "Ryu" +:+ nl; "[ExtraStages]" +:+ nl];
          "g/data" := Dir]},
        SelUpdated).
Proof. vm_compute. reflexivity. Qed.

(* ------------------------------------------------------------------ *)
(** ** Facts about the primitives *)

Lemma bind_Ok {A B} (m : result A) (f : A -> result B) (b : B) :
  (m ≫= f) = Ok b -> exists a, m = Ok a /\ f a = Ok b.
Proof. destruct m; simpl; [eauto | discriminate]. Qed.

Ltac inv_bind H :=
  let a := fresh "a" in let Ha := fresh "Ha" in
  apply bind_Ok in H as [a [Ha H]].

Lemma write_file_Ok fs p n fs' :
  write_file fs p n = Ok fs' -> fs' = <[p := n]> fs /\ fs !! p <> Some Dir.
Proof.
  unfold write_file. intros H.
  destruct (if String.eqb _ "" then _ else _) as [[]|]; try discriminate;
    destruct (fs !! p) as [[]|]; inversion H; subst; split; congruence.
Qed.

Lemma write_file_frame fs p n fs' q :
  write_file fs p n = Ok fs' -> q <> p -> fs' !! q = fs !! q.
Proof.
  intros H Hq. apply write_file_Ok in H as [-> _]. by rewrite lookup_insert_ne.
Qed.

Lemma write_file_here fs p n fs' :
  write_file fs p n = Ok fs' -> fs' !! p = Some n.
Proof.
  intros H. apply write_file_Ok in H as [-> _]. by rewrite lookup_insert_eq.
Qed.

Lemma within_refl p : within p p = true.
Proof. unfold within. by rewrite String.eqb_refl. Qed.

Lemma rmtree_lookup fs p q :
  rmtree fs p !! q = if within p q then None else fs !! q.
Proof.
  unfold rmtree. rewrite map_lookup_filter.
  destruct (fs !! q) as [v|]; simpl; destruct (within p q); simpl; try done.
Qed.

Lemma upper_mugen_not_ikemen e :
  Py.upper e = "MUGEN" -> String.eqb (Py.upper e) "IKEMEN" = false.
Proof. intros ->. reflexivity. Qed.

Lemma mem_In n keep : Py.mem n keep = true <-> In n keep.
Proof.
  unfold Py.mem. rewrite existsb_exists. split.
  - intros [x [Hx Heq]]. apply String.eqb_eq in Heq. by subst.
  - intros H. exists n. split; [done | apply String.eqb_refl].
Qed.

(** The IKEMEN folder of an entry is [Some n] exactly for a [char] path
    that starts with [chars/] (after the backslash rewrite) with [n] its
    second segment. *)
Lemma entry_folder_Some e n :
  entry_folder e = Ok (Some n) <->
  exists s, py_get e "char" (JStr "") = Ok (JStr s) /\
            Py.startswith (Py.replace_char "\"%char "/"%char s) "chars/" = true /\
            nth_error (Py.split "/"%char (Py.replace_char "\"%char "/"%char s)) 1 = Some n.
Proof.
  unfold entry_folder. split.
  - intros H. inv_bind H. destruct a; simpl in H; try discriminate.
    injection H as H. exists s. split; [done|].
    destruct (Py.startswith _ _); [|discriminate]. simpl in H.
    destruct (1 <? length _); [|discriminate]. done.
  - intros [s [Hg [Hst Hn]]]. rewrite Hg.
    cbn -[Py.split Py.replace_char Py.startswith]. rewrite Hst. revert Hn.
    destruct (Py.split _ _) as [|a [|b r]]; simpl; congruence.
Qed.

(** The loop of [write_roster_ikemen] keeps, in order, exactly the
    entries whose folder is in the keep list. *)
Lemma keep_loop_spec keep es kept :
  keep_loop keep es = Ok kept ->
  kept `sublist_of` es /\
  forall e, In e kept <-> In e es /\ exists n, entry_folder e = Ok (Some n) /\ In n keep.
Proof.
  revert kept. induction es as [|e r IH]; intros kept H; simpl in H.
  - injection H as <-. split; [constructor|]. simpl. tauto.
  - inv_bind H. rename a into f. inv_bind H. rename a into rest.
    destruct (IH rest Ha0) as [Hsub Hin]. injection H as <-.
    destruct (folder_in f keep) eqn:Hf.
    + split; [by constructor|]. intros x. simpl. rewrite Hin. split.
      * intros [<-|[Hx Hn]]; [|tauto]. split; [tauto|].
        destruct f as [n|]; [|discriminate]. apply mem_In in Hf. eauto.
      * intros [[<-|Hx] Hn]; [tauto|]. right. tauto.
    + split; [by constructor|]. intros x. simpl. rewrite Hin. split.
      * intros [Hx Hn]. tauto.
      * intros [[<-|Hx] [n [Hn Hk]]]; [|eauto].
        rewrite Ha in Hn. injection Hn as ->. apply mem_In in Hk.
        simpl in Hf. congruence.
Qed.

(* ------------------------------------------------------------------ *)
(** ** The insertion loop of [add_char_to_select_def] *)

(** Invariant of the insertion loop over the lines [seen] so far: before
    the insertion the output is [seen]; after it, [seen] with the new
    line put in once. *)
Definition sel_inv (name : string) (seen : list string) (st : list string * bool * bool) : Prop :=
  let '(new_lines, _, inserted) := st in
  if inserted
  then exists pre post, seen = pre ++ post /\ new_lines = pre ++ char_line name :: post
  else new_lines = seen.

Lemma sel_inv_step name seen st l :
  sel_inv name seen st -> sel_inv name (seen ++ [l]) (select_step name st l).
Proof.
  destruct st as [[nls inn] ins]. unfold select_step.
  assert (Hext : forall b, sel_inv name seen (nls, inn, ins) ->
                   sel_inv name (seen ++ [l]) (nls ++ [l], b, ins)).
  { intros b. destruct ins; simpl.
    - intros [pre [post [-> ->]]]. exists pre, (post ++ [l]).
      rewrite <- !app_assoc. done.
    - intros ->. done. }
  intros H.
  destruct (String.eqb (Py.lower (Py.strip l)) "[characters]"); [by apply Hext|].
  destruct (inn && Py.startswith (Py.strip l) "["); [|by apply Hext].
  destruct ins; simpl in *.
  - destruct H as [pre [post [-> ->]]]. exists pre, (post ++ [l]).
    rewrite <- !app_assoc. done.
  - subst. exists seen, [l]. rewrite <- app_assoc. done.
Qed.

Lemma sel_inv_fold name lines seen st :
  sel_inv name seen st -> sel_inv name (seen ++ lines) (fold_left (select_step name) lines st).
Proof.
  revert seen st. induction lines as [|l lines IH]; intros seen st H; simpl.
  - by rewrite app_nil_r.
  - replace (seen ++ l :: lines) with ((seen ++ [l]) ++ lines) by (by rewrite <- app_assoc).
    apply IH. by apply sel_inv_step.
Qed.

(** The outcomes of [add_char_to_select_def]: only [SelUpdated] writes,
    and it writes the old lines with the new one put in once. *)
Lemma add_char_cases fs p name fs' o :
  add_char_to_select_def fs p name = Ok (fs', o) ->
  exists lines, fs !! p = Some (TextFile lines) /\
    ((o = SelAlreadyPresent /\ already_listed name lines = true /\ fs' = fs) \/
     ((o = SelNoSection \/ o = SelWriteFailed) /\ fs' = fs) \/
     (o = SelUpdated /\ already_listed name lines = false /\
      exists pre post, lines = pre ++ post /\
        write_text fs p (writelines (pre ++ char_line name :: post)) = Ok fs')).
Proof.
  unfold add_char_to_select_def, read_lines. intros H.
  destruct (fs !! p) as [[|lines|v|]|] eqn:Hp; try discriminate. simpl in H.
  exists lines. split; [done|].
  destruct (already_listed name lines) eqn:Hal.
  { injection H as <- <-. left. auto. }
  pose proof (sel_inv_fold name lines [] ([], false, false) eq_refl) as Hinv.
  simpl in Hinv.
  destruct (fold_left (select_step name) lines ([], false, false)) as [[nls inn] ins].
  destruct inn, ins; simpl in H, Hinv.
  - destruct Hinv as [pre [post [Hl Hn]]]. subst nls.
    destruct (write_text _ _ _) eqn:Hw; injection H as <- <-; [|right; left; auto].
    right; right. split; [done|]. split; [done|]. eauto.
  - subst nls. destruct (write_text _ _ _) eqn:Hw; injection H as <- <-; [|right; left; auto].
    right; right. split; [done|]. split; [done|]. exists lines, []. rewrite app_nil_r. auto.
  - destruct Hinv as [pre [post [Hl Hn]]]. subst nls.
    destruct (write_text _ _ _) eqn:Hw; injection H as <- <-; [|right; left; auto].
    right; right. split; [done|]. split; [done|]. eauto.
  - injection H as <- <-. right; left; auto.
Qed.

Lemma univ_newlines_full l s :
  full_line l = true -> univ_newlines (l +:+ s) = l +:+ univ_newlines s.
Proof.
  induction l as [|c r IH]; simpl; [discriminate|].
  destruct (Ascii.eqb c "010"%char) eqn:E1.
  - apply Ascii.eqb_eq in E1 as ->. intros Hr. apply String.eqb_eq in Hr as ->. done.
  - destruct (Ascii.eqb c "013"%char) eqn:E2; simpl; [discriminate|].
    intros Hr. by rewrite IH.
Qed.

Lemma split_after_nl_full l s :
  full_line l = true -> split_after_nl (l +:+ s) = l :: split_after_nl s.
Proof.
  induction l as [|c r IH]; simpl; [discriminate|].
  destruct (Ascii.eqb c "010"%char) eqn:E1.
  - intros Hr. apply String.eqb_eq in Hr as ->. done.
  - intros Hr. apply andb_prop in Hr as [_ Hr]. by rewrite IH.
Qed.

(** Lines that all end in ["\n"] come back unchanged from
    [f.writelines] followed by [f.readlines]. *)
Lemma readlines_writelines ls :
  Forall (fun l => full_line l = true) ls -> readlines (writelines ls) = ls.
Proof.
  unfold readlines. intros Hf.
  assert (Hu : univ_newlines (writelines ls) = writelines ls).
  { induction Hf as [|l ls Hl Hf IH]; simpl; [done|]. by rewrite univ_newlines_full, IH. }
  rewrite Hu. clear Hu.
  induction Hf as [|l ls Hl Hf IH]; simpl; [done|]. by rewrite split_after_nl_full, IH.
Qed.

Lemma full_line_char_line name : no_break name = true -> full_line (char_line name) = true.
Proof.
  unfold no_break, char_line. induction name as [|c r IH]; simpl; [done|].
  intros H. apply andb_prop in H as [Hc Hr]. apply andb_prop in Hc as [Hn Hcr].
  apply negb_true_iff in Hn, Hcr. rewrite Hn, Hcr. simpl. by apply IH.
Qed.

(** A [SelUpdated] call stores what [readlines] gives back of the written
    text. *)
Lemma add_char_updated fs p name fs' :
  add_char_to_select_def fs p name = Ok (fs', SelUpdated) ->
  exists lines pre post,
    fs !! p = Some (TextFile lines) /\ already_listed name lines = false /\
    lines = pre ++ post /\ fs !! p <> Some Dir /\
    fs' = <[p := TextFile (readlines (writelines (pre ++ char_line name :: post)))]> fs.
Proof.
  intros H. apply add_char_cases in H as [lines [Hp [[? _]|[[[? | ?] _]|[_ [Hal [pre [post [Hl Hw]]]]]]]]];
    try discriminate.
  unfold write_text in Hw. apply write_file_Ok in Hw as [-> Hd].
  exists lines, pre, post. auto.
Qed.

(* ------------------------------------------------------------------ *)
(** ** Roster writes and backups *)

(** C1 (amended): no backup is taken.  Each roster writer overwrites the
    roster file in place and leaves every other path of the disk as it
    was, so no backup copy comes into existence. *)
Theorem roster_write_touches_only_roster fs p w fs' q :
  run_roster_write fs p w = Ok fs' -> q <> p -> fs' !! q = fs !! q.
Proof.
  intros H Hq. destruct w as [keep|f d|name]; simpl in H.
  - unfold write_roster_ikemen in H.
    repeat (inv_bind H; try (eapply write_file_frame; eassumption)).
  - unfold add_to_roster_ikemen in H. inv_bind H.
    destruct a as [| | | | |kv]; try discriminate.
    destruct (obj_get _ "Characters") as [[]|]; try discriminate;
      eapply write_file_frame; eassumption.
  - inv_bind H. injection H as <-. destruct a as [fs1 o]. simpl.
    apply add_char_cases in Ha as [lines [_ [[_ [_ ->]]|[[_ ->]|[_ [_ [pre [post [_ Hw]]]]]]]]];
      [done|done|].
    unfold write_text in Hw. eapply write_file_frame; eassumption.
Qed.

Lemma roster_write_touches_only_roster_witness :
  exists fs', run_roster_write {[cfg_path := JsonFile ryu_cfg; "g/save" := Dir; "g/chars/RYU" := Dir]}
                cfg_path (RewriteIkemen []) = Ok fs' /\
              fs' !! "g/chars/RYU" = ({[cfg_path := JsonFile ryu_cfg; "g/save" := Dir; "g/chars/RYU" := Dir]} : disk) !! "g/chars/RYU".
Proof.
  eexists. split; [reflexivity|].
  apply (roster_write_touches_only_roster _ cfg_path (RewriteIkemen [])); [reflexivity|discriminate].
Defined.

(** C1: after [write_roster_ikemen] rewrote [config.json], no path of
    the disk holds a copy of the roster as it was before the write. *)
Lemma write_roster_ikemen_leaves_no_backup :
  exists fs', write_roster_ikemen {[cfg_path := JsonFile ryu_cfg; "g/save" := Dir]} cfg_path [] = Ok fs' /\
              forall q, fs' !! q <> Some (JsonFile ryu_cfg).
Proof.
  eexists. split; [reflexivity|]. intros q.
  destruct (decide (q = cfg_path)) as [->|Hne]; [by rewrite lookup_insert_eq|].
  rewrite !lookup_insert_ne; [|congruence|congruence].
  destruct (decide (q = "g/save")) as [->|Hne']; [by rewrite lookup_singleton_eq|].
  rewrite lookup_singleton_ne; [discriminate|congruence].
Qed.

(** C10: [write_roster_ikemen] replaces the [Characters] list of
    [config.json] by the original entries, in order, whose [char] path
    (with backslashes turned into slashes) starts with [chars/] and whose
    second segment is in the keep list; every other entry, in particular
    every entry outside [chars/], is dropped. *)
Theorem write_roster_ikemen_keeps_chars_entries fs p keep fs' :
  write_roster_ikemen fs p keep = Ok fs' ->
  exists kv es kept,
    fs !! p = Some (JsonFile (JObj kv)) /\
    py_iter (match obj_get kv "Characters" with Some v => v | None => JArr [] end) = Ok es /\
    fs' !! p = Some (JsonFile (JObj (obj_set kv "Characters" (JArr kept)))) /\
    kept `sublist_of` es /\
    forall e, In e kept <->
      In e es /\
      exists s n, py_get e "char" (JStr "") = Ok (JStr s) /\
        Py.startswith (Py.replace_char "\"%char "/"%char s) "chars/" = true /\
        nth_error (Py.split "/"%char (Py.replace_char "\"%char "/"%char s)) 1 = Some n /\
        In n keep.
Proof.
  unfold write_roster_ikemen. intros H.
  inv_bind H. rename a into cfg. inv_bind H. rename a into chars_v.
  inv_bind H. rename a into es. inv_bind H. rename a into kept.
  inv_bind H. rename a into cfg'.
  unfold json_load in Ha. destruct (fs !! p) as [[|lines|v|]|] eqn:Hp; try discriminate.
  injection Ha as <-. destruct v as [| | | | |kv]; try discriminate.
  simpl in Ha0. injection Ha0 as <-. simpl in Ha3. injection Ha3 as <-.
  destruct (keep_loop_spec _ _ _ Ha2) as [Hsub Hin].
  exists kv, es, kept.
  split; [done|]. split; [done|]. split; [by apply write_file_here in H|].
  split; [done|]. intros e. rewrite Hin. split.
  - intros [He [n [Hn Hk]]]. apply entry_folder_Some in Hn as [s Hs].
    split; [done|]. exists s, n. tauto.
  - intros [He [s [n [Hg [Hst [Hn Hk]]]]]]. split; [done|].
    exists n. split; [|done]. apply entry_folder_Some. eauto.
Qed.

Lemma write_roster_ikemen_keeps_chars_entries_witness :
  exists fs', write_roster_ikemen {[cfg_path := JsonFile ryu_cfg; "g/save" := Dir]} cfg_path ["RYU"] = Ok fs' /\
  exists kv es kept,
    ({[cfg_path := JsonFile ryu_cfg; "g/save" := Dir]} : disk) !! cfg_path = Some (JsonFile (JObj kv)) /\
    py_iter (match obj_get kv "Characters" with Some v => v | None => JArr [] end) = Ok es /\
    fs' !! cfg_path = Some (JsonFile (JObj (obj_set kv "Characters" (JArr kept)))) /\
    kept `sublist_of` es /\
    forall e, In e kept <->
      In e es /\
      exists s n, py_get e "char" (JStr "") = Ok (JStr s) /\
        Py.startswith (Py.replace_char "\"%char "/"%char s) "chars/" = true /\
        nth_error (Py.split "/"%char (Py.replace_char "\"%char "/"%char s)) 1 = Some n /\
        In n ["RYU"].
Proof.
  eexists. split; [reflexivity|].
  apply write_roster_ikemen_keeps_chars_entries. reflexivity.
Defined.

(* ------------------------------------------------------------------ *)
(** ** Deleting under MUGEN *)

(** C9: under MUGEN, [delete_character] never writes [select.def].
    When it deletes a character, no directory is left at the character's
    folder path and the roster file is as it was (unless it lies inside
    that folder); on every other outcome the disk is unchanged. *)
Theorem delete_character_mugen_keeps_roster fs roster roster_path engine_type
    chars_folder choice confirm fs' out :
  Py.upper engine_type = "MUGEN" ->
  delete_character fs roster roster_path engine_type chars_folder choice confirm = Ok (fs', out) ->
  match out with
  | Deleted n =>
      isdir fs' (Py.join chars_folder n) = false /\
      (within (Py.join chars_folder n) roster_path = false ->
       fs' !! roster_path = fs !! roster_path)
  | _ => fs' = fs
  end.
Proof.
  intros Hm H. unfold delete_character in H.
  destruct roster as [|r0 rs]; [by injection H as <- <-|].
  destruct choice as [c|]; [|by injection H as <- <-].
  destruct (_ || _); [by injection H as <- <-|].
  inv_bind H. rename a into victim.
  destruct (negb _); [by injection H as <- <-|].
  rewrite upper_mugen_not_ikemen in H by done. simpl in H.
  injection H as <- <-. split.
  - destruct (isdir fs (Py.join chars_folder victim)) eqn:Hd; [|done].
    unfold isdir. by rewrite rmtree_lookup, within_refl.
  - intros Hw. destruct (isdir fs _); [|done]. by rewrite rmtree_lookup, Hw.
Qed.

Definition kfm_disk : disk :=
  {[sel_path := TextFile ["[Characters]" +:+ nl; "KFM" +:+ nl; "randomselect" +:+ nl];
    "g" := Dir; "g/data" := Dir; "g/chars" := Dir; "g/chars/KFM" := Dir;
    "g/chars/KFM/kfm.def" := Blob]}.

Lemma delete_character_mugen_keeps_roster_witness :
  exists fs' out,
    delete_character kfm_disk ["KFM"] sel_path "mugen" "g/chars" (Some 1%Z) "Y" = Ok (fs', out) /\
    match out with
    | Deleted n =>
        isdir fs' (Py.join "g/chars" n) = false /\
        (within (Py.join "g/chars" n) sel_path = false -> fs' !! sel_path = kfm_disk !! sel_path)
    | _ => fs' = kfm_disk
    end.
Proof.
  do 2 eexists. split; [reflexivity|].
  apply (delete_character_mugen_keeps_roster kfm_disk ["KFM"] sel_path "mugen" "g/chars" (Some 1%Z) "Y");
    reflexivity.
Defined.

Example ex_delete_mugen :
  exists fs', delete_character kfm_disk ["KFM"] sel_path "mugen" "g/chars" (Some 1%Z) "Y"
              = Ok (fs', Deleted "KFM") /\
              fs' !! "g/chars/KFM" = None /\ fs' !! "g/chars/KFM/kfm.def" = None /\
              fs' !! sel_path = kfm_disk !! sel_path.
Proof. eexists. split; [reflexivity|]. vm_compute. auto. Qed.

(* ------------------------------------------------------------------ *)
(** ** Adding: the duplicate check *)

Definition ryu_disk : disk :=
  {[cfg_path := JsonFile ryu_cfg; "g" := Dir; "g/save" := Dir; "g/chars" := Dir;
    "g/chars/RYU" := Dir; "dl" := Dir; "dl/ryu.zip" := Blob; "app" := Dir]}.

Definition ryu_archive : archive :=
  {| ar_name := "ryu.zip"; ar_extracted := true; ar_folder := Some "Ryu"; ar_def := Some "ryu.def" |}.

(** C2 (failing input): the roster read from [config.json] lists [RYU];
    [add_characters] compares the discovered folder [Ryu] with it by
    exact string membership, installs it and appends a second entry, so
    the roster then lists both [RYU] and [Ryu].  The installer's
    [add_char_to_select_def] compares case-insensitively and reports
    [Ryu] as already present against a [RYU] line. *)
Theorem add_characters_case_duplicate :
  read_roster ryu_disk cfg_path "IKEMEN" = Ok ["RYU"] /\
  (exists fs',
     add_characters ryu_disk ["RYU"] cfg_path "IKEMEN" "g/chars" "dl" "app" true [ryu_archive]
       = Ok (fs', [Installed "Ryu"]) /\
     read_roster fs' cfg_path "IKEMEN" = Ok ["RYU"; "Ryu"]) /\
  add_char_to_select_def {[sel_path := TextFile ["[Characters]" +:+ nl; "RYU" +:+ nl]]} sel_path "Ryu"
    = Ok ({[sel_path := TextFile ["[Characters]" +:+ nl; "RYU" +:+ nl]]}, SelAlreadyPresent).
Proof.
  split; [reflexivity|]. split; [|reflexivity].
  eexists. split; reflexivity.
Qed.

(* ------------------------------------------------------------------ *)
(** ** A missing roster file *)

(** C8 (amended): a missing roster file is fatal.  [read_roster] raises
    [FileNotFoundError] instead of returning an empty list, and [main]
    stops at start-up without showing the menu. *)
Theorem missing_roster_is_fatal fs game_path engine_type p :
  get_roster_path game_path engine_type = Some p ->
  fs !! p = None ->
  read_roster fs p engine_type = Raise FileNotFoundError /\
  main_start fs game_path engine_type = StartAborted.
Proof.
  intros Hp Hnone. split.
  - unfold get_roster_path in Hp. unfold read_roster, json_load, read_lines.
    rewrite Hnone.
    destruct (String.eqb (Py.upper engine_type) "IKEMEN"); [done|].
    destruct (String.eqb (Py.upper engine_type) "MUGEN"); [done|discriminate].
  - unfold main_start, exists_path. by rewrite Hp, Hnone.
Qed.

Lemma missing_roster_is_fatal_witness :
  read_roster ∅ sel_path "MUGEN" = Raise FileNotFoundError /\
  main_start ∅ "g" "MUGEN" = StartAborted.
Proof. apply (missing_roster_is_fatal ∅ "g" "MUGEN" sel_path); reflexivity. Defined.

(** C8: the roster file is missing, and the read raises rather than
    returning an empty list; the program stops at start-up. *)
Lemma missing_roster_not_empty_result :
  read_roster ∅ sel_path "MUGEN" <> Ok [] /\ main_start ∅ "g" "MUGEN" = StartAborted.
Proof. split; [discriminate|reflexivity]. Qed.

(* ------------------------------------------------------------------ *)
(** ** [sorted(set(...))] *)

Definition str_lt (a b : string) : Prop := String.compare a b = Lt.

Lemma str_compare_refl s : String.compare s s = Eq.
Proof.
  induction s as [|c s IH]; simpl; [done|].
  unfold Ascii.compare. by rewrite N.compare_refl.
Qed.

Lemma str_lt_trans a b c : str_lt a b -> str_lt b c -> str_lt a c.
Proof.
  unfold str_lt. revert b c.
  induction a as [|x a IH]; intros [|y b] [|z c]; simpl; try discriminate; auto.
  destruct (Ascii.compare x y) eqn:Hxy; try discriminate;
  destruct (Ascii.compare y z) eqn:Hyz; try discriminate.
  - apply Ascii.compare_eq_iff in Hxy, Hyz. subst.
    unfold Ascii.compare. rewrite N.compare_refl. apply IH.
  - apply Ascii.compare_eq_iff in Hxy. subst. by rewrite Hyz.
  - apply Ascii.compare_eq_iff in Hyz. subst. by rewrite Hxy.
  - intros _ _. unfold Ascii.compare in *. rewrite N.compare_lt_iff in *.
    assert (Hxz : (N_of_ascii x < N_of_ascii z)%N) by lia.
    apply N.compare_lt_iff in Hxz. by rewrite Hxz.
Qed.

Lemma str_gt_lt a b : String.compare a b = Gt -> str_lt b a.
Proof. unfold str_lt. intros H. by rewrite String.compare_antisym, H. Qed.

Lemma ins_In s xs y : In y (Py.ins s xs) <-> y = s \/ In y xs.
Proof.
  induction xs as [|x r IH]; simpl; [naive_solver|].
  destruct (String.compare s x) eqn:Hc; simpl.
  - apply String.compare_eq_iff in Hc. subst. naive_solver.
  - naive_solver.
  - rewrite IH. naive_solver.
Qed.

Lemma ins_sorted s xs : StronglySorted str_lt xs -> StronglySorted str_lt (Py.ins s xs).
Proof.
  induction xs as [|x r IH]; intros Hs; simpl.
  - repeat constructor.
  - apply StronglySorted_inv in Hs as [Hr Hx].
    destruct (String.compare s x) eqn:Hc.
    + by constructor.
    + constructor; [by constructor|]. constructor; [done|].
      eapply Forall_impl; [exact Hx|]. intros y Hy. by eapply str_lt_trans.
    + constructor; [by apply IH|].
      apply Forall_forall. intros y Hy.
      apply list_elem_of_In, ins_In in Hy as [->|Hy].
      * by apply str_gt_lt.
      * apply list_elem_of_In in Hy. by eapply Forall_forall in Hx.
Qed.

Lemma sorted_set_sorted xs : StronglySorted str_lt (Py.sorted_set xs).
Proof.
  induction xs as [|x r IH]; simpl; [constructor|]. by apply ins_sorted.
Qed.

Lemma sorted_set_In xs y : In y (Py.sorted_set xs) <-> In y xs.
Proof.
  induction xs as [|x r IH]; simpl; [naive_solver|]. rewrite ins_In, IH. naive_solver.
Qed.

Lemma strongly_sorted_NoDup xs : StronglySorted str_lt xs -> NoDup xs.
Proof.
  induction xs as [|x r IH]; intros Hs; [constructor|].
  apply StronglySorted_inv in Hs as [Hr Hx]. constructor; [|by apply IH].
  intros Hin. eapply Forall_forall in Hx; [|exact Hin].
  unfold str_lt in Hx. by rewrite str_compare_refl in Hx.
Qed.

Lemma read_roster_sorted_set fs p e l :
  read_roster fs p e = Ok l -> exists xs, l = Py.sorted_set xs.
Proof.
  unfold read_roster. intros H.
  destruct (String.eqb _ "IKEMEN").
  - do 4 inv_bind H. injection H as <-. eauto.
  - destruct (String.eqb _ "MUGEN").
    + inv_bind H. injection H as <-. eauto.
    + injection H as <-. by exists [].
Qed.

Lemma read_roster_chars fs p e :
  read_roster fs p e = (chars ← roster_chars fs p e; Ok (Py.sorted_set chars)).
Proof.
  unfold read_roster, roster_chars.
  destruct (String.eqb _ "IKEMEN").
  - destruct (json_load fs p); simpl; [|done].
    destruct (py_get _ _ _); simpl; [|done].
    destruct (py_iter _); simpl; [|done].
    by destruct (mapM _ _).
  - destruct (String.eqb _ "MUGEN"); [|done].
    by destruct (read_lines fs p).
Qed.

(** C3 (amended): the list returned by [read_roster] is strictly
    increasing in code-point order, hence sorted and free of exact
    duplicates, and it holds exactly the names collected before
    [sorted(set(chars))]; duplicates are removed case-sensitively, so two
    collected names that are equal after lowercasing are both kept. *)
Theorem read_roster_sorted_unique fs p engine_type l :
  read_roster fs p engine_type = Ok l ->
  exists chars, roster_chars fs p engine_type = Ok chars /\
    Sorted str_lt l /\ NoDup l /\
    (forall x, In x l <-> In x chars) /\
    (forall x y, In x chars -> In y chars -> Py.lower x = Py.lower y -> In x l /\ In y l).
Proof.
  rewrite read_roster_chars. intros H. inv_bind H. rename a into chars.
  injection H as <-. exists chars. split; [done|].
  pose proof (sorted_set_sorted chars) as Hs. split; [by apply StronglySorted_Sorted|].
  split; [by apply strongly_sorted_NoDup|].
  split; [intros x; apply sorted_set_In|].
  intros x y Hx Hy _. split; by apply sorted_set_In.
Qed.

Lemma read_roster_sorted_unique_witness :
  read_roster {[sel_path := TextFile ["[Characters]" +:+ nl; "Ryu" +:+ nl; "RYU" +:+ nl; "Ryu" +:+ nl]]}
    sel_path "MUGEN" = Ok ["RYU"; "Ryu"] /\
  exists chars,
    roster_chars {[sel_path := TextFile ["[Characters]" +:+ nl; "Ryu" +:+ nl; "RYU" +:+ nl; "Ryu" +:+ nl]]}
      sel_path "MUGEN" = Ok chars /\
    Sorted str_lt ["RYU"; "Ryu"] /\ NoDup ["RYU"; "Ryu"] /\
    (forall x, In x ["RYU"; "Ryu"] <-> In x chars) /\
    (forall x y, In x chars -> In y chars -> Py.lower x = Py.lower y ->
                 In x ["RYU"; "Ryu"] /\ In y ["RYU"; "Ryu"]).
Proof.
  split; [reflexivity|].
  apply (read_roster_sorted_unique
           {[sel_path := TextFile ["[Characters]" +:+ nl; "Ryu" +:+ nl; "RYU" +:+ nl; "Ryu" +:+ nl]]}
           sel_path "MUGEN"). reflexivity.
Defined.

(** C3: [Ryu] and [RYU] are both kept, although they are equal after
    lowercasing. *)
Lemma read_roster_keeps_case_variants :
  read_roster {[sel_path := TextFile ["[Characters]" +:+ nl; "Ryu" +:+ nl; "RYU" +:+ nl]]}
    sel_path "MUGEN" = Ok ["RYU"; "Ryu"] /\
  Py.lower "RYU" = Py.lower "Ryu".
Proof. split; reflexivity. Qed.

(* ------------------------------------------------------------------ *)
(** ** The MUGEN scan: blank lines, sentinels and empty tokens *)

Lemma mugen_step_skip st line :
  Py.strip line = "" \/ Py.startswith (Py.strip line) ";" = true ->
  mugen_step st line = st.
Proof.
  destruct st as [inn chars]. unfold mugen_step.
  intros [H|H]; rewrite H; [done|]. by rewrite orb_true_r.
Qed.

Lemma read_roster_mugen_lines fs p engine_type lines :
  Py.upper engine_type = "MUGEN" ->
  read_roster (<[p := TextFile lines]> fs) p engine_type = Ok (Py.sorted_set (mugen_scan lines)).
Proof.
  intros Hm. unfold read_roster, read_lines.
  rewrite upper_mugen_not_ikemen by done. rewrite Hm, lookup_insert_eq. done.
Qed.

(** C6 (amended): a blank line (or a [;] comment line) does not end the
    [Characters] section: the scan skips it, so removing it from the file
    never changes the result, and body lines after it still count. *)
Theorem read_roster_mugen_skips_blank fs p engine_type pre post line :
  Py.upper engine_type = "MUGEN" ->
  Py.strip line = "" \/ Py.startswith (Py.strip line) ";" = true ->
  read_roster (<[p := TextFile (pre ++ line :: post)]> fs) p engine_type =
  read_roster (<[p := TextFile (pre ++ post)]> fs) p engine_type.
Proof.
  intros Hm Hb. rewrite !read_roster_mugen_lines by done.
  unfold mugen_scan. rewrite !fold_left_app. simpl.
  by rewrite mugen_step_skip.
Qed.

Lemma read_roster_mugen_skips_blank_witness :
  read_roster ({[sel_path := Blob]} : disk) sel_path "MUGEN" = Raise JSONDecodeError /\
  read_roster (<[sel_path := TextFile (["[Characters]" +:+ nl; "KFM" +:+ nl] ++ nl :: ["Ryu" +:+ nl])]>
                 ({[sel_path := Blob]} : disk)) sel_path "MUGEN" =
  read_roster (<[sel_path := TextFile (["[Characters]" +:+ nl; "KFM" +:+ nl] ++ ["Ryu" +:+ nl])]>
                 ({[sel_path := Blob]} : disk)) sel_path "MUGEN".
Proof.
  split; [reflexivity|].
  apply read_roster_mugen_skips_blank; [reflexivity | left; reflexivity].
Defined.

(** C6: the entry [Ryu] after a blank line in the section is listed. *)
Lemma read_roster_blank_line_keeps_section :
  read_roster {[sel_path := TextFile ["[Characters]" +:+ nl; "KFM" +:+ nl; nl; "Ryu" +:+ nl]]}
    sel_path "MUGEN" = Ok ["KFM"; "Ryu"].
Proof. reflexivity. Qed.

Lemma lower_bracket s : Py.lower s = "[characters]" -> exists r, s = String "["%char r.
Proof.
  destruct s as [|c r]; [discriminate|]. simpl. intros H. injection H as Hc _.
  exists r. f_equal.
  destruct c as [[] [] [] [] [] [] [] []]; vm_compute in Hc; try discriminate; reflexivity.
Qed.

Lemma mugen_step_header st h :
  Py.lower (Py.strip h) = "[characters]" -> mugen_step st h = (true, st.2).
Proof.
  destruct st as [inn chars]. unfold mugen_step. intros H.
  destruct (lower_bracket _ H) as [r Hr]. rewrite H, Hr. reflexivity.
Qed.

Definition body_tokens (body : list string) : list string :=
  map (fun l => char_token (Py.strip l)) (List.filter (fun l => negb (String.eqb (Py.strip l) "" || Py.startswith (Py.strip l) ";")) body).

Lemma mugen_fold_body body acc :
  Forall (fun l => Py.startswith (Py.strip l) "[" = false) body ->
  fold_left mugen_step body (true, acc) = (true, acc ++ body_tokens body).
Proof.
  revert acc. induction body as [|l body IH]; intros acc Hb; simpl.
  - by rewrite app_nil_r.
  - apply Forall_cons in Hb as [Hl Hb]. unfold body_tokens. simpl List.filter.
    destruct (String.eqb (Py.strip l) "" || Py.startswith (Py.strip l) ";") eqn:Hs; simpl.
    + by apply IH.
    + destruct (String.eqb (Py.lower (Py.strip l)) "[characters]") eqn:Hh.
      * apply String.eqb_eq, lower_bracket in Hh as [r Hr].
        rewrite Hr in Hl. destruct r; simpl in Hl; discriminate.
      * rewrite Hl. simpl. rewrite IH by done. by rewrite <- app_assoc.
Qed.

Lemma mugen_fold_keeps lines st x :
  In x st.2 -> In x (fold_left mugen_step lines st).2.
Proof.
  revert st. induction lines as [|l lines IH]; intros [inn chars] Hx; simpl; [done|].
  apply IH. unfold mugen_step.
  destruct (_ || _); [done|]. destruct (String.eqb _ _); [done|].
  destruct (if Py.startswith (Py.strip l) "[" then false else inn); simpl;
    [apply in_or_app; by left|done].
Qed.

(** C7 (amended): the scan filters neither the sentinel nor empty tokens.
    Every non-blank, non-comment line of the [Characters] body (up to the
    next line starting with [[]) contributes its first token (the text
    before the first comma and the first backslash, trimmed) to the
    result, whatever that token is; [randomselect] and [""] included. *)
Theorem read_roster_mugen_keeps_every_token fs p engine_type pre header body rest line :
  Py.upper engine_type = "MUGEN" ->
  Py.lower (Py.strip header) = "[characters]" ->
  Forall (fun l => Py.startswith (Py.strip l) "[" = false) body ->
  In line body ->
  Py.strip line <> "" ->
  Py.startswith (Py.strip line) ";" = false ->
  exists l, read_roster (<[p := TextFile (pre ++ header :: body ++ rest)]> fs) p engine_type = Ok l /\
            In (char_token (Py.strip line)) l.
Proof.
  intros Hm Hh Hb Hin Hne Hc. rewrite read_roster_mugen_lines by done.
  eexists. split; [reflexivity|]. apply sorted_set_In.
  unfold mugen_scan. rewrite fold_left_app. simpl. rewrite fold_left_app.
  rewrite mugen_step_header by done. rewrite mugen_fold_body by done.
  apply mugen_fold_keeps. simpl.
  apply in_or_app. right. unfold body_tokens. apply (in_map (fun l => char_token (Py.strip l))).
  apply List.filter_In. split; [done|].
  apply String.eqb_neq in Hne. by rewrite Hne, Hc.
Qed.

Lemma read_roster_mugen_keeps_every_token_witness :
  exists l, read_roster (<[sel_path := TextFile ([] ++ ("[Characters]" +:+ nl) ::
                                                  ["randomselect" +:+ nl] ++ ["[ExtraStages]" +:+ nl])]>
                           (∅ : disk)) sel_path "MUGEN" = Ok l /\
            In (char_token (Py.strip ("randomselect" +:+ nl))) l.
Proof.
  apply read_roster_mugen_keeps_every_token.
  - reflexivity.
  - reflexivity.
  - repeat constructor.
  - left. reflexivity.
  - discriminate.
  - reflexivity.
Defined.

(** C7: the sentinel line and a line with an empty first token both
    show up in the parsed list. *)
Lemma read_roster_lists_sentinel_and_empty :
  read_roster {[sel_path := TextFile ["[Characters]" +:+ nl; "KFM" +:+ nl;
                                      "randomselect" +:+ nl; ",stages/x.def" +:+ nl]]}
    sel_path "MUGEN" = Ok [""; "KFM"; "randomselect"].
Proof. reflexivity. Qed.

(* ------------------------------------------------------------------ *)
(** ** The installer's rewrite of [select.def] *)

Lemma select_fold_no_header name lines nl :
  Forall (fun l => String.eqb (Py.lower (Py.strip l)) "[characters]" = false) lines ->
  fold_left (select_step name) lines (nl, false, false) = (nl ++ lines, false, false).
Proof.
  revert nl. induction lines as [|l lines IH]; intros nl Hl; cbn [fold_left].
  - by rewrite app_nil_r.
  - apply Forall_cons in Hl as [Hl Hls].
    assert (select_step name (nl, false, false) l = (nl ++ [l], false, false)) as ->.
    { unfold select_step. by rewrite Hl. }
    rewrite IH by done. by rewrite <- app_assoc.
Qed.

(** C5 (amended): without a [[Characters]] header the installer never
    writes: the disk is unchanged.  The call reports [SelNoSection]
    ([False], "could not find [Characters]") unless its duplicate check,
    which runs first, already finds the name in the file; then it reports
    the name as already present ([True]) and no error. *)
Theorem add_char_no_section_unchanged fs p name lines :
  fs !! p = Some (TextFile lines) ->
  Forall (fun l => String.eqb (Py.lower (Py.strip l)) "[characters]" = false) lines ->
  add_char_to_select_def fs p name =
    Ok (fs, if already_listed name lines then SelAlreadyPresent else SelNoSection).
Proof.
  intros Hp Hl. unfold add_char_to_select_def, read_lines. rewrite Hp. simpl.
  destruct (already_listed name lines); [done|].
  by rewrite select_fold_no_header.
Qed.

Definition stage_only_disk : disk :=
  {[sel_path := TextFile ["[ExtraStages]" +:+ nl; "ryu_stage.def" +:+ nl]]}.

Lemma add_char_no_section_unchanged_witness :
  add_char_to_select_def stage_only_disk sel_path "Ken" =
    Ok (stage_only_disk,
        if already_listed "Ken" ["[ExtraStages]" +:+ nl; "ryu_stage.def" +:+ nl]
        then SelAlreadyPresent else SelNoSection).
Proof.
  apply add_char_no_section_unchanged; [reflexivity|].
  repeat constructor.
Defined.

Definition misspelled_disk : disk :=
  {[sel_path := TextFile ["[Character]" +:+ nl; "Ryu" +:+ nl; "[ExtraStages]" +:+ nl];
    "g/data" := Dir]}.

(** C5: the header is misspelled, so there is no [[Characters]] section,
    but the line [Ryu] is there: adding [Ryu] reports it as already
    present ([True]) instead of failing with a missing-section error. *)
Lemma add_char_no_section_reports_present :
  add_char_to_select_def misspelled_disk sel_path "Ryu" = Ok (misspelled_disk, SelAlreadyPresent).
Proof. reflexivity. Qed.





(** When the last line has no newline and the section runs to the end of
    the file, [f.writelines] glues the new line onto it. *)
Example ex_select_glue :
  exists fs',
    add_char_to_select_def
      {[sel_path := TextFile ["[Characters]" +:+ nl; "KFM" +:+ nl; "randomselect"]; "g/data" := Dir]}
      sel_path "Ryu" = Ok (fs', SelUpdated) /\
    fs' !! sel_path = Some (TextFile ["[Characters]" +:+ nl; "KFM" +:+ nl; "randomselectRyu" +:+ nl]).
Proof. eexists. split; [reflexivity|]. vm_compute. reflexivity. Qed.

(* ------------------------------------------------------------------ *)
(** ** The remaining functions: round trips, edge cases and frames *)


Lemma map_str_app f s t : Py.map_str f (s +:+ t) = Py.map_str f s +:+ Py.map_str f t.
Proof. induction s as [|c s IH]; simpl; [done | by rewrite IH]. Qed.

Lemma replace_char_id a b s :
  Forall (fun c => c <> a) (String.list_ascii_of_string s) -> Py.replace_char a b s = s.
Proof.
  unfold Py.replace_char. induction s as [|c s IH]; simpl; [done|].
  intros Hf. inversion Hf as [|? ? Hc Hr]; subst.
  destruct (Ascii.eqb c a) eqn:E; [apply Ascii.eqb_eq in E; congruence|].
  by rewrite IH.
Qed.

Lemma prefix_app s t : String.prefix s (s +:+ t) = true.
Proof.
  induction s as [|c s IH]; simpl; [by destruct t|].
  destruct (ascii_dec c c); [done | congruence].
Qed.

Lemma split_app sep w r :
  Forall (fun c => c <> sep) (String.list_ascii_of_string w) ->
  Py.split sep (w +:+ String sep r) = w :: Py.split sep r.
Proof.
  induction w as [|c w IH]; intros Hf; simpl.
  - by rewrite Ascii.eqb_refl.
  - inversion Hf as [|? ? Hc Hr]; subst.
    destruct (Ascii.eqb c sep) eqn:E; [apply Ascii.eqb_eq in E; congruence|].
    by rewrite IH.
Qed.

Lemma list_ascii_app s t :
  String.list_ascii_of_string (s +:+ t) = String.list_ascii_of_string s ++ String.list_ascii_of_string t.
Proof. induction s as [|c s IH]; simpl; [done | by rewrite IH]. Qed.

Lemma string_of_list_app l m :
  String.string_of_list_ascii (l ++ m) = String.string_of_list_ascii l +:+ String.string_of_list_ascii m.
Proof. induction l as [|c l IH]; simpl; [done | by rewrite IH]. Qed.

Lemma rev_str_app s t : Py.rev_str (s +:+ t) = Py.rev_str t +:+ Py.rev_str s.
Proof. unfold Py.rev_str. by rewrite list_ascii_app, rev_app_distr, string_of_list_app. Qed.

Lemma endswith_app s t : Py.endswith (s +:+ t) t = true.
Proof. unfold Py.endswith. rewrite rev_str_app. apply prefix_app. Qed.

Lemma mapM_app {A B} (f : A -> result B) xs ys :
  mapM f (xs ++ ys) = (a ← mapM f xs; b ← mapM f ys; Ok (a ++ b)).
Proof.
  induction xs as [|x xs IH]; simpl.
  - by destruct (mapM f ys).
  - destruct (f x); simpl; [|done]. rewrite IH.
    destruct (mapM f xs); simpl; [|done]. by destruct (mapM f ys).
Qed.

Lemma mapM_In {A B} (f : A -> result B) xs ys :
  mapM f xs = Ok ys -> forall y, In y ys <-> exists x, In x xs /\ f x = Ok y.
Proof.
  revert ys. induction xs as [|x xs IH]; intros ys H y; simpl in H.
  - injection H as <-. simpl. naive_solver.
  - inv_bind H. inv_bind H. injection H as <-. simpl.
    rewrite (IH _ Ha0). split.
    + intros [<-|[x' [Hx' Hf]]]; eauto.
    + intros [x' [[<-|Hx'] Hf]]; [left; congruence | eauto].
Qed.

Lemma mapM_total {A B} (f : A -> result B) xs :
  (forall x, In x xs -> exists y, f x = Ok y) -> exists ys, mapM f xs = Ok ys.
Proof.
  induction xs as [|x xs IH]; intros H; simpl; [eauto|].
  destruct (H x (or_introl eq_refl)) as [y ->]. simpl.
  destruct IH as [ys ->]; [intros; apply H; by right|]. simpl. eauto.
Qed.

Lemma omap_id_In (l : list (option string)) x : In x (omap id l) <-> In (Some x) l.
Proof.
  induction l as [|[y|] l IH]; simpl; [tauto| |]; rewrite IH; naive_solver.
Qed.

Lemma obj_get_set kv k v : obj_get (obj_set kv k v) k = Some v.
Proof.
  induction kv as [|[k' v'] kv IH]; simpl.
  - by rewrite String.eqb_refl.
  - destruct (String.eqb k k') eqn:E; simpl; rewrite ?E; [done|]. done.
Qed.

(** The IKEMEN roster, seen from the [Characters] list it is read from. *)
Lemma read_roster_ikemen_elim fs p e l :
  String.eqb (Py.upper e) "IKEMEN" = true ->
  read_roster fs p e = Ok l ->
  exists kv es, fs !! p = Some (JsonFile (JObj kv)) /\
    py_iter (match obj_get kv "Characters" with Some v => v | None => JArr [] end) = Ok es /\
    (forall en, In en es -> exists r, entry_folder en = Ok r) /\
    (forall x, In x l <-> exists en, In en es /\ entry_folder en = Ok (Some x)).
Proof.
  unfold read_roster, json_load. intros Hi H. rewrite Hi in H.
  destruct (fs !! p) as [[| |v|]|]; try discriminate. simpl in H.
  destruct v as [| | | | |kv]; try discriminate. simpl in H.
  inv_bind H. rename a into es. inv_bind H. rename a into fl.
  injection H as <-. exists kv, es. split; [done|]. split; [done|]. split.
  - intros en Hen. destruct (entry_folder en) as [r|err] eqn:E; [eauto|].
    exfalso. clear -Ha0 Hen E. revert fl Ha0. induction es as [|x es IH]; intros fl H;
      [done|]. simpl in H. destruct Hen as [<-|Hen].
    + by rewrite E in H.
    + inv_bind H. inv_bind H. eauto.
  - intros x. rewrite sorted_set_In, omap_id_In. by apply mapM_In.
Qed.

Lemma read_roster_ikemen_intro fs p e kv es :
  String.eqb (Py.upper e) "IKEMEN" = true ->
  fs !! p = Some (JsonFile (JObj kv)) ->
  obj_get kv "Characters" = Some (JArr es) ->
  (forall en, In en es -> exists r, entry_folder en = Ok r) ->
  exists l, read_roster fs p e = Ok l /\
    forall x, In x l <-> exists en, In en es /\ entry_folder en = Ok (Some x).
Proof.
  unfold read_roster, json_load. intros Hi Hp Hc Ht. rewrite Hi, Hp. simpl.
  rewrite Hc. simpl. destruct (mapM_total _ _ Ht) as [fl Hfl]. rewrite Hfl.
  eexists. split; [reflexivity|]. intros x.
  rewrite sorted_set_In, omap_id_In. by apply mapM_In.
Qed.

(** After [write_roster_ikemen], reading the roster gives the names
    that were both in it and in the keep list. *)
Lemma write_read_ikemen fs p e keep l fs' :
  String.eqb (Py.upper e) "IKEMEN" = true ->
  read_roster fs p e = Ok l ->
  write_roster_ikemen fs p keep = Ok fs' ->
  exists l', read_roster fs' p e = Ok l' /\ forall x, In x l' <-> In x l /\ In x keep.
Proof.
  intros Hi Hr Hw.
  destruct (read_roster_ikemen_elim _ _ _ _ Hi Hr) as [kv [es [Hp [Hes [Htot Hl]]]]].
  unfold write_roster_ikemen, json_load in Hw. rewrite Hp in Hw. simpl in Hw.
  rewrite Hes in Hw. simpl in Hw. inv_bind Hw. rename a into kept.
  simpl in Hw. apply write_file_here in Hw.
  destruct (keep_loop_spec _ _ _ Ha) as [_ Hk].
  destruct (read_roster_ikemen_intro fs' p e (obj_set kv "Characters" (JArr kept)) kept)
    as [l' [Hr' Hl']]; [done|done|apply obj_get_set| |].
  { intros en Hen. apply Hk in Hen as [Hen _]. by apply Htot. }
  exists l'. split; [done|]. intros x. rewrite Hl', Hl. split.
  - intros [en [Hen Hf]]. apply Hk in Hen as [Hen [n [Hn Hkeep]]].
    rewrite Hf in Hn. injection Hn as <-. eauto.
  - intros [[en [Hen Hf]] Hkeep]. exists en. split; [|done].
    apply Hk. eauto.
Qed.

(** X1: after [add_to_roster_ikemen] appends the folder [folder] (a name
    without [/] or backslash) to [config.json], reading the IKEMEN roster
    again gives the names it gave before, plus [folder]. *)
Theorem add_to_roster_ikemen_then_read fs p e folder def l fs' :
  String.eqb (Py.upper e) "IKEMEN" = true ->
  Forall (fun c => c <> "/"%char /\ c <> "\"%char) (String.list_ascii_of_string folder) ->
  read_roster fs p e = Ok l ->
  add_to_roster_ikemen fs p folder def = Ok fs' ->
  exists l', read_roster fs' p e = Ok l' /\ forall x, In x l' <-> In x l \/ x = folder.
Proof.
  intros Hi Hf Hr Ha.
  destruct (read_roster_ikemen_elim _ _ _ _ Hi Hr) as [kv [es [Hp [Hes [Htot Hl]]]]].
  unfold add_to_roster_ikemen, json_load in Ha. rewrite Hp in Ha. simpl in Ha.
  set (new := JObj [("char", JStr ("chars/" +:+ folder +:+ "/" +:+ def))]) in Ha.
  assert (Hkv1 : exists kv1, obj_get kv1 "Characters" = Some (JArr es) /\
            write_file fs p (JsonFile (JObj (obj_set kv1 "Characters" (JArr (es ++ [new]))))) = Ok fs').
  { destruct (obj_get kv "Characters") as [v|] eqn:Hg.
    - simpl in Ha. rewrite Hg in Ha. destruct v as [| | | |ls|]; try discriminate.
      simpl in Hes. injection Hes as ->. eauto.
    - simpl in Ha. rewrite obj_get_set in Ha. simpl in Hes. injection Hes as <-.
      exists (obj_set kv "Characters" (JArr [])). rewrite obj_get_set. eauto. }
  destruct Hkv1 as [kv1 [Hg1 Hw]]. apply write_file_here in Hw.
  assert (Hnew : entry_folder new = Ok (Some folder)).
  { apply entry_folder_Some. eexists. split; [reflexivity|].
    assert (Hrep : Py.replace_char "\"%char "/"%char ("chars/" +:+ folder +:+ "/" +:+ def)
                   = "chars/" +:+ (folder +:+ String "/"%char
                       (Py.replace_char "\"%char "/"%char def))).
    { unfold Py.replace_char. rewrite !map_str_app. fold (Py.replace_char "\"%char "/"%char folder).
      rewrite replace_char_id; [reflexivity|]. eapply Forall_impl; [exact Hf|]. naive_solver. }
    rewrite Hrep. split; [apply prefix_app|].
    change ("chars/" +:+ ?X) with ("chars" +:+ String "/"%char X).
    rewrite split_app; [|repeat constructor; discriminate].
    rewrite split_app; [done|]. eapply Forall_impl; [exact Hf|]. naive_solver. }
  destruct (read_roster_ikemen_intro fs' p e _ (es ++ [new]) Hi Hw (obj_get_set _ _ _))
    as [l' [Hr' Hl']].
  { intros en Hen. apply in_app_or in Hen as [Hen|[<-|[]]]; [by apply Htot|eauto]. }
  exists l'. split; [done|]. intros x. rewrite Hl', Hl. split.
  - intros [en [Hen Hx]]. apply in_app_or in Hen as [Hen|[<-|[]]]; [eauto|].
    rewrite Hnew in Hx. injection Hx as ->. by right.
  - intros [[en [Hen Hx]] | ->].
    + exists en. split; [apply in_or_app; by left|done].
    + exists new. split; [apply in_or_app; right; by left|done].
Qed.

Lemma add_to_roster_ikemen_then_read_witness :
  exists fs', add_to_roster_ikemen duo_disk cfg_path "Ryu" "ryu.def" = Ok fs' /\
  exists l', read_roster fs' cfg_path "IKEMEN" = Ok l' /\
    forall x, In x l' <-> In x ["KFM"; "RYU"] \/ x = "Ryu".
Proof.
  eexists. split; [reflexivity|].
  apply (add_to_roster_ikemen_then_read duo_disk cfg_path "IKEMEN" "Ryu" "ryu.def" ["KFM"; "RYU"]);
    [reflexivity | repeat constructor; discriminate | reflexivity | reflexivity].
Defined.

(** X2: after [write_roster_ikemen] rewrites [config.json] with a keep
    list, reading the IKEMEN roster again gives exactly the names that
    were in the roster and in the keep list. *)
Theorem write_roster_ikemen_then_read fs p e keep l fs' :
  String.eqb (Py.upper e) "IKEMEN" = true ->
  read_roster fs p e = Ok l ->
  write_roster_ikemen fs p keep = Ok fs' ->
  exists l', read_roster fs' p e = Ok l' /\ forall x, In x l' <-> In x l /\ In x keep.
Proof. apply write_read_ikemen. Qed.

Lemma read_roster_same_file fs1 fs2 p e :
  fs1 !! p = fs2 !! p -> read_roster fs1 p e = read_roster fs2 p e.
Proof. intros H. unfold read_roster, json_load, read_lines. by rewrite H. Qed.

Lemma remove_first_In x xs y :
  NoDup xs -> In y (Py.remove_first x xs) <-> In y xs /\ y <> x.
Proof.
  induction xs as [|z xs IH]; intros Hnd; simpl; [tauto|].
  inversion Hnd as [|? ? Hz Hnd']; subst.
  destruct (String.eqb x z) eqn:E.
  - apply String.eqb_eq in E as <-. split.
    + intros Hy. split; [by right|]. intros Hyx. subst y. apply Hz. by apply list_elem_of_In.
    + intros [[<-|Hy] Hne]; [congruence|done].
  - apply String.eqb_neq in E. simpl. rewrite IH by done. naive_solver.
Qed.

Lemma write_roster_ikemen_then_read_witness :
  exists fs', write_roster_ikemen duo_disk cfg_path ["KFM"] = Ok fs' /\
  exists l', read_roster fs' cfg_path "IKEMEN" = Ok l' /\
    forall x, In x l' <-> In x ["KFM"; "RYU"] /\ In x ["KFM"].
Proof.
  eexists. split; [reflexivity|].
  apply (write_roster_ikemen_then_read duo_disk cfg_path "IKEMEN" ["KFM"] ["KFM"; "RYU"]);
    reflexivity.
Defined.

Lemma index_In {A} (xs : list A) i x : Py.index xs i = Ok x -> In x xs.
Proof.
  unfold Py.index. destruct (_ <? 0)%Z; [discriminate|].
  destruct (nth_error _ _) eqn:E; [|discriminate]. intros [= <-].
  by eapply nth_error_In.
Qed.

(** X3: under IKEMEN, when [delete_character] deletes a name from the
    roster read from [config.json] (which does not lie inside the deleted
    folder), the roster read afterwards holds every other name and not
    the deleted one. *)
Theorem delete_character_ikemen_then_read fs p e chars choice confirm roster fs' name :
  String.eqb (Py.upper e) "IKEMEN" = true ->
  read_roster fs p e = Ok roster ->
  within (Py.join chars name) p = false ->
  delete_character fs roster p e chars choice confirm = Ok (fs', Deleted name) ->
  exists l', read_roster fs' p e = Ok l' /\ forall x, In x l' <-> In x roster /\ x <> name.
Proof.
  intros Hi Hr Hwi Hd.
  pose proof Hr as Hnd. apply read_roster_sorted_set in Hnd as [xs Hxs].
  assert (Hnd : NoDup roster) by (subst; apply strongly_sorted_NoDup, sorted_set_sorted).
  unfold delete_character in Hd. destruct roster as [|r0 rs]; [discriminate|].
  destruct choice as [c|]; [|discriminate].
  destruct (_ || _); [discriminate|].
  inv_bind Hd. rename a into n. destruct (negb _); [discriminate|].
  rewrite Hi in Hd. inv_bind Hd. rename a into fs1. injection Hd as <- <-.
  destruct (write_read_ikemen _ _ _ _ _ _ Hi Hr Ha0) as [l' [Hr' Hl']].
  exists l'. split.
  - rewrite <- Hr'. apply read_roster_same_file.
    destruct (isdir fs1 _); [|done]. by rewrite rmtree_lookup, Hwi.
  - intros x. rewrite Hl', remove_first_In by done. tauto.
Qed.

Lemma delete_character_ikemen_then_read_witness :
  exists fs', delete_character duo_disk ["KFM"; "RYU"] cfg_path "IKEMEN" "g/chars" (Some 2%Z) "Y"
                = Ok (fs', Deleted "RYU") /\
  exists l', read_roster fs' cfg_path "IKEMEN" = Ok l' /\
    forall x, In x l' <-> In x ["KFM"; "RYU"] /\ x <> "RYU".
Proof.
  eexists. split; [reflexivity|].
  apply (delete_character_ikemen_then_read duo_disk cfg_path "IKEMEN" "g/chars" (Some 2%Z) "Y");
    reflexivity.
Defined.

(** X5: whenever [delete_character] deletes nothing (empty roster,
    choice 0 or out of range, not a number, no [y]), the disk is left as
    it was. *)
Theorem delete_character_no_deletion_unchanged fs roster p e chars choice confirm fs' o :
  delete_character fs roster p e chars choice confirm = Ok (fs', o) ->
  (forall n, o <> Deleted n) ->
  fs' = fs.
Proof.
  unfold delete_character. intros Hd Ho.
  destruct roster as [|r0 rs]; [congruence|].
  destruct choice as [c|]; [|congruence].
  destruct (_ || _); [congruence|].
  inv_bind Hd. destruct (negb _); [congruence|].
  inv_bind Hd. injection Hd as _ <-. exfalso. by eapply Ho.
Qed.

Lemma delete_character_no_deletion_unchanged_witness :
  exists fs' o, delete_character duo_disk ["KFM"; "RYU"] cfg_path "IKEMEN" "g/chars" (Some 1%Z) "n"
                  = Ok (fs', o) /\ o = DelCancelled /\ fs' = duo_disk.
Proof.
  do 2 eexists. split; [reflexivity|]. split; [reflexivity|].
  apply (delete_character_no_deletion_unchanged duo_disk ["KFM"; "RYU"] cfg_path "IKEMEN" "g/chars"
           (Some 1%Z) "n" _ DelCancelled); [reflexivity | discriminate].
Defined.

(** X4: a negative choice is not rejected by [delete_character]: it
    indexes the roster from the end, as Python does, so [-1] picks the
    second-to-last name; a choice below [1 - len roster] raises
    [IndexError]. *)
Theorem delete_character_negative_choice fs roster p e chars c confirm :
  roster <> [] -> (c < 0)%Z ->
  ((Z.of_nat (length roster) + c < 1)%Z ->
     delete_character fs roster p e chars (Some c) confirm = Raise IndexError) /\
  ((1 <= Z.of_nat (length roster) + c)%Z -> Py.lower confirm = "y" -> Py.upper e = "MUGEN" ->
     exists n fs', nth_error roster (Z.to_nat (Z.of_nat (length roster) + c - 1)) = Some n /\
       delete_character fs roster p e chars (Some c) confirm = Ok (fs', Deleted n)).
Proof.
  intros Hne Hc. unfold delete_character, Py.index.
  destruct roster as [|r0 rs]; [done|].
  replace ((c =? 0)%Z || (Z.of_nat (length (r0 :: rs)) <? c)%Z) with false
    by (symmetry; apply orb_false_iff; split; [apply Z.eqb_neq|apply Z.ltb_ge]; lia).
  replace (c - 1 <? 0)%Z with true by (symmetry; apply Z.ltb_lt; lia).
  split.
  - intros Hlt. replace (c - 1 + Z.of_nat (length (r0 :: rs)) <? 0)%Z with true
      by (symmetry; apply Z.ltb_lt; lia). reflexivity.
  - intros Hge Hy Hm. replace (c - 1 + Z.of_nat (length (r0 :: rs)) <? 0)%Z with false
      by (symmetry; apply Z.ltb_ge; lia).
    replace (Z.to_nat (c - 1 + Z.of_nat (length (r0 :: rs))))
      with (Z.to_nat (Z.of_nat (length (r0 :: rs)) + c - 1)) by (f_equal; lia).
    destruct (nth_error (r0 :: rs) _) as [n|] eqn:En.
    + exists n. simpl. rewrite Hy, (upper_mugen_not_ikemen _ Hm). simpl. eauto.
    + exfalso. apply nth_error_None in En. simpl length in *. lia.
Qed.

Lemma delete_character_negative_choice_witness :
  exists fs', delete_character sel_disk ["A"; "B"; "C"] sel_path "MUGEN" "g/chars" (Some (-1)%Z) "y"
                = Ok (fs', Deleted "B").
Proof.
  destruct (proj2 (delete_character_negative_choice sel_disk ["A"; "B"; "C"] sel_path "MUGEN"
                     "g/chars" (-1)%Z "y" ltac:(discriminate) ltac:(lia))
              ltac:(simpl; lia) eq_refl eq_refl) as [n [fs' [Hn Hd]]].
  simpl in Hn. injection Hn as <-. eauto.
Defined.

(* makedirs and validate_paths *)

Definition adds_dirs (fs fs' : disk) : Prop :=
  forall q, fs' !! q = fs !! q \/ (fs !! q = None /\ fs' !! q = Some Dir).

Lemma adds_dirs_refl fs : adds_dirs fs fs.
Proof. intros q. by left. Qed.

Lemma adds_dirs_trans fs1 fs2 fs3 : adds_dirs fs1 fs2 -> adds_dirs fs2 fs3 -> adds_dirs fs1 fs3.
Proof.
  intros H12 H23 q. destruct (H12 q) as [E1|[E1 D1]], (H23 q) as [E2|[E2 D2]].
  - left. congruence.
  - right. split; [congruence|done].
  - right. split; [done|congruence].
  - congruence.
Qed.

Lemma adds_dirs_keep fs fs' q v : adds_dirs fs fs' -> fs !! q = Some v -> fs' !! q = Some v.
Proof. intros H Hq. destruct (H q) as [E|[E _]]; congruence. Qed.

Lemma mkdir_spec fs name fs' :
  mkdir fs name = Ok fs' -> adds_dirs fs fs' /\ fs' !! name = Some Dir.
Proof.
  unfold mkdir, exists_path. intros H.
  destruct (fs !! name) eqn:En; [discriminate|].
  assert (Hins : adds_dirs fs (<[name := Dir]> fs) /\ <[name := Dir]> fs !! name = Some Dir).
  { split; [|apply lookup_insert_eq]. intros q.
    destruct (decide (q = name)) as [->|Hne].
    - right. by rewrite lookup_insert_eq.
    - left. by rewrite lookup_insert_ne. }
  destruct (String.eqb _ ""); [by injection H as <-|].
  destruct (fs !! (Py.split_path name).1) as [[]|]; try discriminate; by injection H as <-.
Qed.

Lemma mkdir_raises fs name e : mkdir fs name = Raise e -> e <> ShutilError.
Proof.
  unfold mkdir. destruct (exists_path fs name); [congruence|].
  destruct (String.eqb _ ""); [congruence|].
  destruct (fs !! (Py.split_path name).1) as [[]|]; congruence.
Qed.

Lemma makedirs_fuel_spec n fs name :
  match makedirs_fuel n fs name with
  | Ok fs' => adds_dirs fs fs'
  | Raise e => e <> ShutilError
  end.
Proof.
  revert fs name. induction n as [|n IH]; intros fs name; simpl.
  - destruct (mkdir fs name) eqn:E; [by apply mkdir_spec in E as [? _]|by eapply mkdir_raises].
  - destruct (Py.split_path name) as [h0 t0].
    destruct (if String.eqb t0 "" then Py.split_path h0 else (h0, t0)) as [h t].
    destruct (_ && _ && _).
    + specialize (IH fs h).
      assert (Hrec : match (match makedirs_fuel n fs h with
                            | Raise FileExistsError => Ok fs | r => r end) with
                     | Ok fs1 => adds_dirs fs fs1 | Raise e => e <> ShutilError end).
      { destruct (makedirs_fuel n fs h) as [f|[]]; try done. apply adds_dirs_refl. }
      destruct (match makedirs_fuel n fs h with Raise FileExistsError => Ok fs | r => r end)
        as [fs1|err]; simpl; [|done].
      destruct (String.eqb t "."); [done|].
      destruct (mkdir fs1 name) eqn:E; [|by eapply mkdir_raises].
      apply mkdir_spec in E as [E _]. by eapply adds_dirs_trans.
    + destruct (mkdir fs name) eqn:E; [by apply mkdir_spec in E as [? _]|by eapply mkdir_raises].
Qed.

Lemma makedirs_creates fs name fs' :
  makedirs fs name = Ok fs' -> Py.basename name <> "" -> Py.basename name <> "." ->
  fs' !! name = Some Dir.
Proof.
  unfold makedirs, Py.basename. intros H Hb Hd.
  destruct (String.length name) as [|n]; simpl in H.
  { by apply mkdir_spec in H as [_ ?]. }
  destruct (Py.split_path name) as [h0 t0]. simpl in Hb, Hd.
  apply String.eqb_neq in Hb. rewrite Hb in H.
  destruct (_ && _ && _).
  - apply bind_Ok in H as [fs1 [_ H]]. apply String.eqb_neq in Hd. rewrite Hd in H.
    by apply mkdir_spec in H as [_ ?].
  - by apply mkdir_spec in H as [_ ?].
Qed.

Lemma makedirs_adds fs name fs' : makedirs fs name = Ok fs' -> adds_dirs fs fs'.
Proof.
  intros H. pose proof (makedirs_fuel_spec (String.length name) fs name) as Hs.
  unfold makedirs in H. by rewrite H in Hs.
Qed.

Lemma rmtree_dir_frame fs t fs' q :
  rmtree_dir fs t = Ok fs' -> within t q = false -> fs' !! q = fs !! q.
Proof.
  unfold rmtree_dir. intros H Hq.
  destruct (fs !! t) as [[]|]; try discriminate. injection H as <-.
  by rewrite rmtree_lookup, Hq.
Qed.

Lemma rmtree_dir_clears fs t fs' q :
  rmtree_dir fs t = Ok fs' -> within t q = true -> fs' !! q = None.
Proof.
  unfold rmtree_dir. intros H Hq.
  destruct (fs !! t) as [[]|]; try discriminate. injection H as <-.
  by rewrite rmtree_lookup, Hq.
Qed.

(** Preparing the temporary folder changes nothing outside it but the
    directories [os.makedirs] adds. *)
Lemma fresh_temp_frame fs t fs' q :
  fresh_temp fs t = Ok fs' -> within t q = false ->
  fs' !! q = fs !! q \/ (fs !! q = None /\ fs' !! q = Some Dir).
Proof.
  unfold fresh_temp. intros H Hq. apply bind_Ok in H as [fs0 [H0 H]].
  apply makedirs_adds in H.
  assert (E : fs0 !! q = fs !! q).
  { destruct (exists_path fs t); [by eapply rmtree_dir_frame | by injection H0 as <-]. }
  rewrite <- E. apply H.
Qed.

Lemma fresh_temp_keeps fs t fs' q v :
  fresh_temp fs t = Ok fs' -> within t q = false -> fs !! q = Some v -> fs' !! q = Some v.
Proof. intros H Hq Hv. destruct (fresh_temp_frame _ _ _ _ H Hq) as [E|[E _]]; congruence. Qed.

Lemma split_rev_noslash t l :
  Forall (fun c => c <> "/"%char) t ->
  Py.split_rev (t ++ l) = (t ++ (Py.split_rev l).1, (Py.split_rev l).2).
Proof.
  induction 1 as [|c t Hc Ht IH]; simpl; [by destruct (Py.split_rev l)|].
  destruct (Ascii.eqb c "/"%char) eqn:E; [apply Ascii.eqb_eq in E; congruence|].
  by rewrite IH.
Qed.

Lemma basename_join b t :
  Forall (fun c => c <> "/"%char) (String.list_ascii_of_string t) ->
  Py.startswith t "/" = false ->
  Py.basename (Py.join b t) = t.
Proof.
  intros Ht Hs. unfold Py.basename, Py.split_path, Py.join. rewrite Hs.
  apply Forall_rev in Ht.
  assert (Hend : forall l, Py.split_rev (rev (String.list_ascii_of_string t) ++ "/"%char :: l) =
                           (rev (String.list_ascii_of_string t), "/"%char :: l)).
  { intros l. rewrite split_rev_noslash by done. simpl. by rewrite app_nil_r. }
  assert (Htail : String.string_of_list_ascii (rev (rev (String.list_ascii_of_string t))) = t).
  { rewrite rev_involutive. apply String.string_of_list_ascii_of_string. }
  destruct (String.eqb b "") eqn:Eb.
  - rewrite <- (app_nil_r (rev (String.list_ascii_of_string t))).
    rewrite split_rev_noslash by done. simpl. rewrite app_nil_r. exact Htail.
  - destruct (Py.endswith_char b "/"%char) eqn:Ee.
    + unfold Py.endswith_char, Py.rev_str in Ee.
      destruct (rev (String.list_ascii_of_string b)) as [|d r] eqn:Er; simpl in Ee; [discriminate|].
      apply Ascii.eqb_eq in Ee as ->.
      rewrite list_ascii_app, rev_app_distr, Er, Hend. exact Htail.
    + rewrite !list_ascii_app, !rev_app_distr. simpl. rewrite <- app_assoc. simpl.
      rewrite Hend. exact Htail.
Qed.

Lemma basename_temp b : Py.basename (Py.join b "_temp_extract") = "_temp_extract".
Proof. apply basename_join; [repeat constructor; discriminate | reflexivity]. Qed.

Lemma fresh_temp_creates fs b fs' :
  fresh_temp fs (Py.join b "_temp_extract") = Ok fs' -> fs' !! Py.join b "_temp_extract" = Some Dir.
Proof.
  unfold fresh_temp. intros H. apply bind_Ok in H as [fs0 [_ H]].
  apply (makedirs_creates _ _ _ H); rewrite basename_temp; discriminate.
Qed.

Lemma move_into_keeps fs dst name fs' q v :
  move_into fs dst name = Ok fs' -> fs !! q = Some v -> fs' !! q = Some v.
Proof.
  unfold move_into, exists_path. intros H Hq.
  destruct (isdir fs dst).
  - destruct (fs !! Py.join dst name) eqn:Ej; [discriminate|]. injection H as <-.
    rewrite lookup_insert_ne; [done|congruence].
  - destruct (fs !! dst) eqn:Ed; [discriminate|]. injection H as <-.
    rewrite lookup_insert_ne; [done|congruence].
Qed.


Lemma os_remove_frame fs p fs' q : os_remove fs p = Ok fs' -> q <> p -> fs' !! q = fs !! q.
Proof.
  unfold os_remove. intros H Hq.
  destruct (fs !! p) as [[]|]; try discriminate; injection H as <-; by rewrite lookup_delete_ne.
Qed.





Lemma write_file_isdir fs p n fs' q :
  write_file fs p n = Ok fs' -> isdir fs q = true -> isdir fs' q = true.
Proof.
  intros H Hq. apply write_file_Ok in H as [-> Hd]. unfold isdir in *.
  destruct (decide (q = p)) as [->|Hne].
  - by destruct (fs !! p) as [[]|].
  - by rewrite lookup_insert_ne.
Qed.

Lemma os_remove_isdir fs p fs' q :
  os_remove fs p = Ok fs' -> isdir fs q = true -> isdir fs' q = true.
Proof.
  unfold os_remove, isdir. intros H Hq.
  destruct (decide (q = p)) as [->|Hne].
  - destruct (fs !! p) as [[]|]; discriminate.
  - destruct (fs !! p) as [[]|]; try discriminate; injection H as <-;
      by rewrite lookup_delete_ne.
Qed.

Lemma add_to_roster_ikemen_write fs p f d fs' :
  add_to_roster_ikemen fs p f d = Ok fs' -> exists n, write_file fs p n = Ok fs'.
Proof.
  unfold add_to_roster_ikemen. intros H. inv_bind H.
  destruct a as [| | | | |kv]; try discriminate.
  destruct (obj_get _ "Characters") as [[]|]; try discriminate. eauto.
Qed.

Lemma isdir_exists fs q : isdir fs q = true -> exists_path fs q = true.
Proof. unfold isdir, exists_path. by destruct (fs !! q). Qed.

Lemma move_into_isdir fs dst name fs' q :
  move_into fs dst name = Ok fs' -> isdir fs q = true -> isdir fs' q = true.
Proof.
  unfold move_into. intros H Hq.
  destruct (isdir fs dst); [destruct (exists_path fs _)|destruct (exists_path fs dst)];
    try discriminate; injection H as <-; unfold isdir in *;
    match goal with |- context [<[?k := _]> _ !! q] =>
      destruct (decide (q = k)) as [->|Hne];
      [by rewrite lookup_insert_eq | by rewrite lookup_insert_ne] end.
Qed.

(** Every successful step of [add_characters] keeps the directories that
    were there outside the temporary folder. *)
Lemma add_one_isdir roster p e chars dl base cleanup fs a fs' rep q :
  add_one roster p e chars dl base cleanup fs a = Ok (fs', rep) ->
  within (Py.join base "_temp_extract") q = false ->
  isdir fs q = true -> isdir fs' q = true.
Proof.
  unfold add_one. intros H Ht Hq.
  assert (Eq : fs !! q = Some Dir) by (unfold isdir in Hq; by destruct (fs !! q) as [[]|]).
  apply bind_Ok in H as [fs0 [Hfr H]]. pose proof (fresh_temp_keeps _ _ _ _ _ Hfr Ht Eq) as E0.
  destruct (ar_extracted a); simpl in H; [|injection H as <- _; unfold isdir; by rewrite E0].
  destruct (ar_folder a) as [n|]; [|injection H as <- _; unfold isdir; by rewrite E0].
  destruct (Py.mem n roster); [injection H as <- _; unfold isdir; by rewrite E0|].
  apply bind_Ok in H as [fsm [Hmv H]]. pose proof (move_into_keeps _ _ _ _ _ _ Hmv E0) as Em.
  destruct (ar_def a) as [d|]; [|injection H as <- _; unfold isdir; by rewrite Em].
  apply bind_Ok in H as [fs2 [Hreg H]]. apply bind_Ok in H as [fs3 [Hrm H]].
  apply bind_Ok in H as [fs4 [Ht4 H]]. injection H as <- _.
  assert (H2 : isdir fs2 q = true).
  { destruct (String.eqb _ "IKEMEN").
    - apply add_to_roster_ikemen_write in Hreg as [nd Hw].
      eapply write_file_isdir; [exact Hw|]. unfold isdir. by rewrite Em.
    - injection Hreg as <-. unfold isdir. by rewrite Em. }
  assert (H3 : isdir fs3 q = true).
  { destruct cleanup; [by eapply os_remove_isdir | by injection Hrm as <-]. }
  unfold isdir in *. by rewrite (rmtree_dir_frame _ _ _ _ Ht4 Ht).
Qed.

Lemma add_characters_cons fs roster p e chars dl base cleanup a r res :
  add_characters fs roster p e chars dl base cleanup (a :: r) = Ok res ->
  exists fs1 rep res', add_one roster p e chars dl base cleanup fs a = Ok (fs1, rep) /\
    add_characters fs1 roster p e chars dl base cleanup r = Ok res'.
Proof.
  intros H. cbn [add_characters] in H. inv_bind H. destruct a0 as [fs1 rep].
  inv_bind H. eauto.
Qed.

Lemma fresh_temp_isdir fs t fs' q :
  fresh_temp fs t = Ok fs' -> within t q = false -> isdir fs q = true -> isdir fs' q = true.
Proof.
  unfold isdir. intros H Ht Hq. destruct (fs !! q) as [[]|] eqn:E; try discriminate.
  by rewrite (fresh_temp_keeps _ _ _ _ _ H Ht E).
Qed.

(** X7: the roster is not updated inside the loop of [add_characters]:
    when two archives of one batch give the same folder, absent from the
    roster read before the loop, the chars folder is a directory and
    neither it nor the character's folder lies in the temporary
    extraction folder, the call does not succeed (the second move
    raises). *)
Theorem add_characters_same_folder_twice_fails fs roster p e chars dl base cleanup a1 a2 rest n res :
  ar_extracted a1 = true -> ar_extracted a2 = true ->
  ar_folder a1 = Some n -> ar_folder a2 = Some n ->
  Py.mem n roster = false ->
  isdir fs chars = true ->
  within (Py.join base "_temp_extract") chars = false ->
  within (Py.join base "_temp_extract") (Py.join chars n) = false ->
  add_characters fs roster p e chars dl base cleanup (a1 :: a2 :: rest) <> Ok res.
Proof.
  intros He1 He2 Hf1 Hf2 Hm Hc Htc Htn H.
  apply add_characters_cons in H as [fs1 [rep1 [res1 [Ha H]]]].
  apply add_characters_cons in H as [fs2 [rep2 [res2 [Ha0 _]]]].
  assert (Hd1 : isdir fs1 chars = true /\ isdir fs1 (Py.join chars n) = true).
  { pose proof Ha as Hstep. unfold add_one in Hstep.
    apply bind_Ok in Hstep as [fs0 [Hfr Hstep]]. rewrite He1, Hf1, Hm in Hstep. simpl in Hstep.
    apply bind_Ok in Hstep as [fsm [Hmove Hstep]].
    pose proof (fresh_temp_isdir _ _ _ _ Hfr Htc Hc) as Hc0.
    assert (Hmv : isdir fsm (Py.join chars n) = true).
    { unfold move_into in Hmove. rewrite Hc0 in Hmove.
      destruct (exists_path fs0 _); [discriminate|]. injection Hmove as <-.
      unfold isdir. by rewrite lookup_insert_eq. }
    split; [by eapply add_one_isdir|].
    destruct (ar_def a1) as [d|]; [|by injection Hstep as <- _].
    apply bind_Ok in Hstep as [fs2' [Hreg Hstep]].
    apply bind_Ok in Hstep as [fs3' [Hrm Hstep]].
    apply bind_Ok in Hstep as [fs4' [Ht4 Hstep]].
    injection Hstep as <- _.
    assert (H2 : isdir fs2' (Py.join chars n) = true).
    { destruct (String.eqb _ "IKEMEN").
      - apply add_to_roster_ikemen_write in Hreg as [nd Hw]. by eapply write_file_isdir.
      - by injection Hreg as <-. }
    assert (H3 : isdir fs3' (Py.join chars n) = true).
    { destruct cleanup; [by eapply os_remove_isdir | by injection Hrm as <-]. }
    unfold isdir in *. by rewrite (rmtree_dir_frame _ _ _ _ Ht4 Htn). }
  destruct Hd1 as [Hc1 Hn1].
  unfold add_one in Ha0. apply bind_Ok in Ha0 as [fs0' [Hfr' Ha0]].
  rewrite He2, Hf2, Hm in Ha0. simpl in Ha0.
  pose proof (fresh_temp_isdir _ _ _ _ Hfr' Htc Hc1) as Hc2.
  pose proof (fresh_temp_isdir _ _ _ _ Hfr' Htn Hn1) as Hn2.
  unfold move_into in Ha0. rewrite Hc2, (isdir_exists _ _ Hn2) in Ha0. discriminate.
Qed.

Lemma add_characters_same_folder_twice_fails_witness :
  exists err, add_characters sel_disk [] sel_path "MUGEN" "g/chars" "dl" "app" false
                [ryu_archive; ryu_archive] = Raise err.
Proof.
  destruct (add_characters sel_disk [] sel_path "MUGEN" "g/chars" "dl" "app" false
              [ryu_archive; ryu_archive]) as [res|err] eqn:E; [|eauto].
  exfalso. exact (add_characters_same_folder_twice_fails sel_disk [] sel_path "MUGEN" "g/chars"
                    "dl" "app" false ryu_archive ryu_archive [] "Ryu" res
                    eq_refl eq_refl eq_refl eq_refl eq_refl eq_refl eq_refl eq_refl E).
Defined.

Lemma index_ok {A} (xs : list A) i :
  (0 <= i < Z.of_nat (length xs))%Z -> exists x, Py.index xs i = Ok x.
Proof.
  intros Hi. unfold Py.index.
  replace (i <? 0)%Z with false by (symmetry; apply Z.ltb_ge; lia).
  replace (i <? 0)%Z with false by (symmetry; apply Z.ltb_ge; lia).
  destruct (nth_error xs (Z.to_nat i)) as [x|] eqn:E; [eauto|].
  apply nth_error_None in E. lia.
Qed.

(** X8: the archive picked in [replace_character] has no effect: any two
    valid archive numbers give the same result, since [add_characters] is
    run over all the archives. *)
Theorem replace_character_archive_choice_irrelevant fs roster p e chars dl base cleanup choice
    archives ac1 ac2 :
  (1 <= ac1 <= Z.of_nat (length archives))%Z ->
  (1 <= ac2 <= Z.of_nat (length archives))%Z ->
  replace_character fs roster p e chars dl base cleanup choice archives (Some ac1) =
  replace_character fs roster p e chars dl base cleanup choice archives (Some ac2).
Proof.
  intros H1 H2. unfold replace_character.
  destruct roster as [|r0 rs]; [done|]. destruct choice as [c|]; [|done].
  destruct (_ || _); [done|].
  destruct (Py.index _ (c - 1)) as [x|]; simpl; [|done].
  rewrite <- (length_map ar_name archives) in H1, H2.
  destruct (map ar_name archives) as [|nm nms]; [done|].
  replace ((ac1 =? 0)%Z || (Z.of_nat (length (nm :: nms)) <? ac1)%Z) with false
    by (symmetry; apply orb_false_iff; split; [apply Z.eqb_neq|apply Z.ltb_ge]; lia).
  replace ((ac2 =? 0)%Z || (Z.of_nat (length (nm :: nms)) <? ac2)%Z) with false
    by (symmetry; apply orb_false_iff; split; [apply Z.eqb_neq|apply Z.ltb_ge]; lia).
  destruct (index_ok (nm :: nms) (ac1 - 1)) as [y1 ->]; [lia|].
  destruct (index_ok (nm :: nms) (ac2 - 1)) as [y2 ->]; [lia|].
  reflexivity.
Qed.

Lemma replace_character_archive_choice_irrelevant_witness :
  replace_character duo_disk ["KFM"; "RYU"] cfg_path "IKEMEN" "g/chars" "dl" "app" true (Some 2%Z)
    [ryu_archive; {| ar_name := "ken.7z"; ar_extracted := false; ar_folder := None; ar_def := None |}]
    (Some 1%Z) =
  replace_character duo_disk ["KFM"; "RYU"] cfg_path "IKEMEN" "g/chars" "dl" "app" true (Some 2%Z)
    [ryu_archive; {| ar_name := "ken.7z"; ar_extracted := false; ar_folder := None; ar_def := None |}]
    (Some 2%Z).
Proof. apply replace_character_archive_choice_irrelevant; simpl; lia. Defined.

Lemma prefix_refl s : String.prefix s s = true.
Proof. induction s as [|c s IH]; simpl; [done|]. destruct (ascii_dec c c); [done|congruence]. Qed.

(** After a successful call the roster file lists the name, when all its
    old lines end in a newline. *)
Lemma add_char_listed fs p name fs' o lines :
  add_char_to_select_def fs p name = Ok (fs', o) ->
  (o = SelAlreadyPresent \/ o = SelUpdated) ->
  fs !! p = Some (TextFile lines) ->
  Forall (fun l => full_line l = true) lines ->
  no_break name = true ->
  Py.strip (char_line name) = name ->
  exists lines', fs' !! p = Some (TextFile lines') /\ already_listed name lines' = true.
Proof.
  intros H [-> | ->] Hp Hf Hn Hs.
  - apply add_char_cases in H as [l [Hl [[_ [Hal ->]]|[[[? | ?] _]|[? _]]]]]; try discriminate.
    eauto.
  - apply add_char_updated in H as [l [pre [post [Hl [_ [Hlp [_ ->]]]]]]].
    rewrite Hp in Hl. injection Hl as <-. subst lines.
    exists (pre ++ char_line name :: post). rewrite lookup_insert_eq.
    rewrite readlines_writelines.
    + split; [done|]. apply existsb_exists. exists (char_line name).
      split; [apply in_or_app; right; by left|]. rewrite Hs. apply prefix_refl.
    + apply Forall_app in Hf as [Hpre Hpost]. apply Forall_app. split; [done|].
      constructor; [by apply full_line_char_line|done].
Qed.

(** X9: [add_char_to_select_def] is idempotent: once it has updated a
    [select.def] whose lines all end in a newline, for a name without
    line breaks or surrounding whitespace, a second call reports the name
    as present and changes nothing. *)
Theorem add_char_to_select_def_idempotent fs p name fs' lines :
  fs !! p = Some (TextFile lines) ->
  Forall (fun l => full_line l = true) lines ->
  no_break name = true ->
  Py.strip (char_line name) = name ->
  add_char_to_select_def fs p name = Ok (fs', SelUpdated) ->
  add_char_to_select_def fs' p name = Ok (fs', SelAlreadyPresent).
Proof.
  intros Hp Hf Hn Hs H.
  destruct (add_char_listed _ _ _ _ _ _ H (or_intror eq_refl) Hp Hf Hn Hs) as [l [Hl Hal]].
  unfold add_char_to_select_def, read_lines. rewrite Hl. simpl. by rewrite Hal.
Qed.

Lemma add_char_to_select_def_idempotent_witness :
  exists fs', add_char_to_select_def sel_disk sel_path "Ryu" = Ok (fs', SelUpdated) /\
    add_char_to_select_def fs' sel_path "Ryu" = Ok (fs', SelAlreadyPresent).
Proof.
  eexists. split; [reflexivity|].
  eapply (add_char_to_select_def_idempotent sel_disk sel_path "Ryu");
    [reflexivity | repeat constructor | reflexivity | reflexivity | reflexivity].
Defined.

(** X10: when [config.json] is missing and its parent folder is a
    directory (or the path has no folder part), [load_or_create_config]
    writes the default configuration there, touches no other path and
    returns [None]; the next call returns the default configuration. *)
Theorem load_or_create_config_creates_default fs p :
  exists_path fs p = false ->
  (Py.split_path p).1 = "" \/ isdir fs (Py.split_path p).1 = true ->
  exists fs', load_or_create_config fs p = Ok (fs', None) /\
    fs' !! p = Some (JsonFile default_config) /\
    (forall q, q <> p -> fs' !! q = fs !! q) /\
    load_or_create_config fs' p = Ok (fs', Some default_config).
Proof.
  unfold load_or_create_config, exists_path. intros Hp Hpar.
  destruct (fs !! p) eqn:E; [discriminate|]. simpl.
  assert (Hw : write_file fs p (JsonFile default_config) = Ok (<[p := JsonFile default_config]> fs)).
  { unfold write_file. rewrite E.
    destruct Hpar as [-> | Hd]; [reflexivity|].
    destruct (String.eqb _ ""); [reflexivity|].
    unfold isdir in Hd. destruct (fs !! (Py.split_path p).1) as [[]|]; try discriminate. reflexivity. }
  rewrite Hw. simpl.
  eexists. split; [reflexivity|]. split; [apply lookup_insert_eq|]. split.
  - intros q Hq. by apply lookup_insert_ne.
  - rewrite lookup_insert_eq. simpl. unfold json_load. by rewrite lookup_insert_eq.
Qed.

Lemma load_or_create_config_creates_default_witness :
  exists fs', load_or_create_config ∅ "config.json" = Ok (fs', None) /\
    fs' !! "config.json" = Some (JsonFile default_config) /\
    (forall q, q <> "config.json" -> fs' !! q = (∅ : disk) !! q) /\
    load_or_create_config fs' "config.json" = Ok (fs', Some default_config).
Proof. apply load_or_create_config_creates_default; [reflexivity | left; reflexivity]. Defined.

Lemma validate_paths_spec fs mugen dl fs' :
  Installer.validate_paths fs mugen dl = Ok fs' ->
  (forall q, fs' !! q = fs !! q \/ (fs !! q = None /\ fs' !! q = Some Dir)) /\
  isdir fs' mugen = true /\
  isdir fs' (Py.join mugen "chars") = true /\
  isdir fs' (Py.join mugen "data") = true /\
  isfile fs' (Py.join (Py.join mugen "data") "select.def") = true /\
  (Py.basename dl <> "" -> Py.basename dl <> "." -> isdir fs' dl = true).
Proof.
  unfold Installer.validate_paths. intros H.
  destruct (isdir fs mugen) eqn:Hm; [|discriminate].
  destruct (isdir fs (Py.join mugen "chars")) eqn:Hc; [|discriminate].
  destruct (isdir fs (Py.join mugen "data")) eqn:Hd; [|discriminate].
  destruct (isfile fs _) eqn:Hs; [|discriminate]. simpl in H.
  assert (Had : adds_dirs fs fs').
  { destruct (isdir fs dl); simpl in H; [injection H as <-; apply adds_dirs_refl|].
    pose proof (makedirs_fuel_spec (String.length dl) fs dl) as Hsp.
    unfold makedirs in H. by rewrite H in Hsp. }
  assert (Hkd : forall q, isdir fs q = true -> isdir fs' q = true).
  { unfold isdir. intros q Hq. destruct (fs !! q) as [[]|] eqn:E; try discriminate.
    by rewrite (adds_dirs_keep _ _ _ _ Had E). }
  split; [exact Had|]. split; [by apply Hkd|]. split; [by apply Hkd|].
  split; [by apply Hkd|]. split.
  - unfold isfile in *. destruct (fs !! _) as [v|] eqn:E; [|discriminate].
    by rewrite (adds_dirs_keep _ _ _ _ Had E).
  - intros Hb Hdot. destruct (isdir fs dl) eqn:Hdl; simpl in H.
    + by injection H as <-.
    + unfold isdir. by rewrite (makedirs_creates _ _ _ H Hb Hdot).
Qed.

(** X11: when [validate_paths] succeeds, the game folder, [chars] and
    [data] are directories and [select.def] is a file; no path that
    existed has changed, only new directories were added, and the
    downloads folder is a directory (its last component being neither
    empty nor [.]). *)
Theorem validate_paths_ok fs mugen dl fs' :
  Installer.validate_paths fs mugen dl = Ok fs' ->
  (forall q, fs' !! q = fs !! q \/ (fs !! q = None /\ fs' !! q = Some Dir)) /\
  isdir fs' mugen = true /\
  isdir fs' (Py.join mugen "chars") = true /\
  isdir fs' (Py.join mugen "data") = true /\
  isfile fs' (Py.join (Py.join mugen "data") "select.def") = true /\
  (Py.basename dl <> "" -> Py.basename dl <> "." -> isdir fs' dl = true).
Proof. apply validate_paths_spec. Qed.

(** X12: when the installer processes an archive and
    [add_char_to_select_def] reports success, [select.def] then lists the
    character, provided the old lines of [select.def] all end in a
    newline, the name has no line break or surrounding whitespace, the
    archive is not [select.def] itself and [select.def] does not lie in
    the temporary extraction folder. *)
Theorem process_archive_registered_is_listed mugen dl cleanup fs a fs' n lines :
  Installer.process_archive mugen dl cleanup fs a = Ok (fs', Installer.Processed n true) ->
  fs !! Py.join (Py.join mugen "data") "select.def" = Some (TextFile lines) ->
  Forall (fun l => full_line l = true) lines ->
  no_break n = true ->
  Py.strip (char_line n) = n ->
  Py.join dl (ar_name a) <> Py.join (Py.join mugen "data") "select.def" ->
  within (Py.join dl "_temp_extract") (Py.join (Py.join mugen "data") "select.def") = false ->
  exists lines', fs' !! Py.join (Py.join mugen "data") "select.def" = Some (TextFile lines') /\
    already_listed n lines' = true.
Proof.
  unfold Installer.process_archive. intros H Hsel Hf Hn Hs Hne Ht.
  apply bind_Ok in H as [fs0 [Hfr H]].
  pose proof (fresh_temp_keeps _ _ _ _ _ Hfr Ht Hsel) as E0.
  destruct (ar_extracted a); simpl in H; [|discriminate].
  destruct (ar_folder a) as [m|]; [|apply bind_Ok in H as [? [_ H]]; discriminate].
  destruct (exists_path _ _); [apply bind_Ok in H as [? [_ H]]; discriminate|].
  apply bind_Ok in H as [fs1 [Hmv H]].
  pose proof (move_into_keeps _ _ _ _ _ _ Hmv E0) as E1.
  apply bind_Ok in H as [[fs2 o] [Hadd H]].
  apply bind_Ok in H as [fs3 [Hrm H]].
  apply bind_Ok in H as [fs4 [Ht4 H]].
  injection H as <- <- Hok.
  assert (Ho : o = SelAlreadyPresent \/ o = SelUpdated) by (destruct o; auto; discriminate).
  destruct (add_char_listed _ _ _ _ _ _ Hadd Ho E1 Hf Hn Hs) as [l' [Hl Hal]].
  exists l'. split; [|done].
  rewrite (rmtree_dir_frame _ _ _ _ Ht4 Ht).
  rewrite Hok in Hrm. destruct cleanup; simpl in Hrm.
  - rewrite (os_remove_frame _ _ _ _ Hrm) by congruence. done.
  - by injection Hrm as <-.
Qed.

Lemma process_archive_registered_is_listed_witness :
  exists fs', Installer.process_archive "m" "m/dl" true mugen_disk ryu_archive
                = Ok (fs', Installer.Processed "Ryu" true) /\
  exists lines, fs' !! Py.join (Py.join "m" "data") "select.def" = Some (TextFile lines) /\
    already_listed "Ryu" lines = true.
Proof.
  eexists. split; [reflexivity|].
  eapply (process_archive_registered_is_listed "m" "m/dl" true mugen_disk ryu_archive);
    [reflexivity | reflexivity | repeat constructor | reflexivity | reflexivity | discriminate |
     reflexivity].
Defined.

Lemma validate_paths_ok_witness :
  exists fs', Installer.validate_paths mugen_disk "m" "m/dl/new" = Ok fs' /\
    isdir fs' "m/dl/new" = true /\ mugen_disk !! "m/dl/new" = None.
Proof.
  eexists. split; [reflexivity|]. split; [|reflexivity].
  refine (proj2 (proj2 (proj2 (proj2 (proj2 (validate_paths_ok mugen_disk "m" "m/dl/new" _ eq_refl)))))
            _ _); cbv; discriminate.
Defined.

(** X13: the installer removes its temporary extraction folder after
    every archive it gets past the extraction: after any outcome other
    than [ExtractFailed] no path at or below the folder is left, and
    after [ExtractFailed] the folder is left in place as a directory. *)
Theorem process_archive_temp_folder mugen dl cleanup fs a fs' r :
  Installer.process_archive mugen dl cleanup fs a = Ok (fs', r) ->
  match r with
  | Installer.ExtractFailed => fs' !! Py.join dl "_temp_extract" = Some Dir
  | _ => forall q, within (Py.join dl "_temp_extract") q = true -> fs' !! q = None
  end.
Proof.
  unfold Installer.process_archive. intros H.
  apply bind_Ok in H as [fs0 [Hfr H]].
  destruct (ar_extracted a); simpl in H; [|injection H as <- <-; by eapply fresh_temp_creates].
  destruct (ar_folder a) as [m|].
  - destruct (exists_path _ _).
    + apply bind_Ok in H as [fs1 [Hrm H]]. injection H as <- <-.
      intros q Hq. by eapply rmtree_dir_clears.
    + apply bind_Ok in H as [fs1 [_ H]]. apply bind_Ok in H as [[fs2 o] [_ H]].
      apply bind_Ok in H as [fs3 [_ H]]. apply bind_Ok in H as [fs4 [Hrm H]].
      injection H as <- <-. intros q Hq. by eapply rmtree_dir_clears.
  - apply bind_Ok in H as [fs1 [Hrm H]]. injection H as <- <-.
    intros q Hq. by eapply rmtree_dir_clears.
Qed.

Lemma process_archive_temp_folder_witness :
  exists fs', Installer.process_archive "m" "m/dl" true mugen_disk ryu_archive
                = Ok (fs', Installer.Processed "Ryu" true) /\
    forall q, within (Py.join "m/dl" "_temp_extract") q = true -> fs' !! q = None.
Proof.
  eexists. split; [reflexivity|].
  exact (process_archive_temp_folder "m" "m/dl" true mugen_disk ryu_archive _ _ eq_refl).
Defined.

(** X14: one step of the manager's [add_characters] leaves the temporary
    extraction folder behind, as a directory, whenever it skips an
    archive (failed extraction, no character folder, already installed,
    no [.def] file), and removes it with everything below it only after
    [Installed] or [MovedOnly]. *)
Theorem add_one_temp_folder roster p e chars dl base cleanup fs a fs' rep :
  add_one roster p e chars dl base cleanup fs a = Ok (fs', rep) ->
  match rep with
  | Installed _ | MovedOnly _ =>
      forall q, within (Py.join base "_temp_extract") q = true -> fs' !! q = None
  | _ => fs' !! Py.join base "_temp_extract" = Some Dir
  end.
Proof.
  unfold add_one. intros H.
  apply bind_Ok in H as [fs0 [Hfr H]]. pose proof (fresh_temp_creates _ _ _ Hfr) as E0.
  destruct (ar_extracted a); simpl in H; [|by injection H as <- <-].
  destruct (ar_folder a) as [n|]; [|by injection H as <- <-].
  destruct (Py.mem n roster); [by injection H as <- <-|].
  apply bind_Ok in H as [fs1 [Hmv H]]. pose proof (move_into_keeps _ _ _ _ _ _ Hmv E0) as E1.
  destruct (ar_def a) as [d|]; [|by injection H as <- <-].
  apply bind_Ok in H as [fs2 [_ H]]. apply bind_Ok in H as [fs3 [_ H]].
  apply bind_Ok in H as [fs4 [Hrm H]]. injection H as <- <-.
  destruct (String.eqb _ "IKEMEN"); intros q Hq; by eapply rmtree_dir_clears.
Qed.

Lemma add_one_temp_folder_witness :
  exists fs', add_one [] sel_path "MUGEN" "g/chars" "dl" "app" true sel_disk
                {| ar_name := "ken.7z"; ar_extracted := false; ar_folder := None; ar_def := None |}
                = Ok (fs', ExtractFailed) /\
    fs' !! Py.join "app" "_temp_extract" = Some Dir.
Proof.
  eexists. split; [reflexivity|].
  exact (add_one_temp_folder [] sel_path "MUGEN" "g/chars" "dl" "app" true sel_disk
           {| ar_name := "ken.7z"; ar_extracted := false; ar_folder := None; ar_def := None |}
           _ _ eq_refl).
Defined.

Lemma lower_app s t : Py.lower (s +:+ t) = Py.lower s +:+ Py.lower t.
Proof. apply map_str_app. Qed.

(** X15: the file name returned by [find_def_file] always ends in
    [.def], in any letter case. *)
Theorem find_def_file_ends_in_def listdir fs path f :
  find_def_file listdir fs path = Some f -> Py.endswith (Py.lower f) ".def" = true.
Proof.
  unfold find_def_file. intros H.
  destruct (isfile fs _).
  - injection H as <-. rewrite lower_app. apply endswith_app.
  - by apply find_some in H as [_ H].
Qed.

Lemma find_def_file_ends_in_def_witness :
  find_def_file (fun _ => ["readme.txt"; "Ryu.DEF"]) ∅ "t/Ryu" = Some "Ryu.DEF" /\
  Py.endswith (Py.lower "Ryu.DEF") ".def" = true.
Proof.
  split; [reflexivity|].
  apply (find_def_file_ends_in_def (fun _ => ["readme.txt"; "Ryu.DEF"]) ∅ "t/Ryu"). reflexivity.
Defined.

(** X16: the manager's [find_character_folder] returns only a listed
    entry that is a directory. *)
Theorem find_character_folder_is_listed_dir listdir fs base x :
  find_character_folder listdir fs base = Some x ->
  In x (listdir base) /\ isdir fs (Py.join base x) = true.
Proof.
  unfold find_character_folder. intros H.
  destruct (listdir base) as [|c0 rest] eqn:Hl; [discriminate|].
  destruct ((match rest with [] => true | _ => false end) && isdir fs (Py.join base c0)) eqn:E1.
  - injection H as <-. apply andb_true_iff in E1 as [_ E1]. split; [by left|done].
  - destruct (List.find _ (c0 :: rest)) as [item|] eqn:Hf.
    + injection H as <-. apply find_some in Hf as [Hin Hp].
      apply andb_true_iff in Hp as [Hp _]. done.
    + destruct (isdir fs (Py.join base c0)) eqn:E2; [|discriminate].
      injection H as <-. split; [by left|done].
Qed.

Lemma find_character_folder_is_listed_dir_witness :
  find_character_folder (fun p => if String.eqb p "t" then ["A"; "x.txt"] else [])
    {["t/A" := Dir]} "t" = Some "A" /\
  In "A" ["A"; "x.txt"] /\ isdir {["t/A" := Dir]} (Py.join "t" "A") = true.
Proof.
  split; [reflexivity|].
  apply (find_character_folder_is_listed_dir
           (fun p => if String.eqb p "t" then ["A"; "x.txt"] else []) {["t/A" := Dir]} "t").
  reflexivity.
Defined.

(** X17: the installer's [find_character_folder] returns the first
    listed directory holding a [.def] file named after it; its
    single-folder shortcut never changes the answer. *)
Theorem installer_find_character_folder_first_own_def listdir fs base :
  Installer.find_character_folder listdir fs base =
  List.find (fun item => isdir fs (Py.join base item) &&
                         isfile fs (Py.join (Py.join base item) (item +:+ ".def")))
            (listdir base).
Proof.
  unfold Installer.find_character_folder.
  destruct (listdir base) as [|c0 [|c1 r]]; simpl; [done| |done].
  by destruct (_ && _).
Qed.
